(** * Rep-counting engine and its web clients: a shallow embedding

    The development follows the layout of the application:

    - [JS]: the fragment of JavaScript values and truthiness that the
      client code relies on ([a || b], [!x]).
    - [RepCounter], [ExerciseAnalyzer], [ExerciseTracker]: the counting
      engine of [backend_v2].  Its Python modules are not part of the
      source tree at hand; they are modelled from the specification and
      from [backend_v2/README.md].
    - [Http], [RepCountingService], [WorkoutService], [WorkoutContext],
      [WorkoutPage]: the clients, embedded from
      [frontend_v2/src/services/repCountingService.js],
      [frontend_v2/src/services/workoutService.js], the workout context
      and the workout page.
    - [World]: two rep-counting services in front of one server.

    Definitions come first; the theorems follow in [RepCounterFacts],
    [RepCountingServiceFacts], [AnalyzerFacts], [ResetFacts], [CountFacts],
    [WorldFacts] and [WorkoutPageFacts], and in the modules after them. *)

From Stdlib Require Import QArith Qround ZArith String List Lia.
From stdpp Require Import gmap strings.

Local Open Scope Q_scope.

(* ===================================================================== *)
(** ** JavaScript values *)
(* ===================================================================== *)

Module JS.

(** JSON payloads and React state hold dynamically typed values.  Numbers
    are rationals; [JNaN] stands for the one number that is not. *)
Inductive jsval : Type :=
| JUndefined
| JNull
| JBool (b : bool)
| JNum (q : Q)
| JNaN
| JStr (s : string).

(** ToBoolean: [undefined], [null], [false], [0], [NaN] and the empty
    string are falsy, everything else is truthy. *)
Definition truthy (v : jsval) : bool :=
  match v with
  | JUndefined | JNull | JNaN => false
  | JBool b => b
  | JNum q => negb (Qeq_bool q 0)
  | JStr s => negb (String.eqb s "")
  end.

(** [a || b] *)
Definition js_or (a b : jsval) : jsval := if truthy a then a else b.

(** Truthiness of a value that is either [null] or a string. *)
Definition truthy_str (o : option string) : bool :=
  match o with
  | Some s => negb (String.eqb s "")
  | None => false
  end.

(** [a || b] where [a] is a string or missing and [b] is a string. *)
Definition str_or (a : option string) (b : string) : string :=
  match a with
  | Some s => if String.eqb s "" then b else s
  | None => b
  end.

End JS.

(* ===================================================================== *)
(** ** RepCounter: the state machine *)
(* ===================================================================== *)

Module RepCounter.

(** Modelled from the spec: the stage of a repetition (spec 4.3, states
    UNKNOWN, CONTRACTED, EXTENDED); the analyzers of
    [backend_v2/modules/exercise] are missing from the source tree. *)
Inductive Stage : Type := UNKNOWN | CONTRACTED | EXTENDED.

Definition stage_eqb (a b : Stage) : bool :=
  match a, b with
  | UNKNOWN, UNKNOWN | CONTRACTED, CONTRACTED | EXTENDED, EXTENDED => true
  | _, _ => false
  end.

(** Modelled from the spec: the counting direction of a profile (spec 3,
    ExerciseProfile). *)
Inductive Direction : Type :=
| ContractedToExtended
| ExtendedToContracted.

(** Modelled from the spec: ExerciseProfile (spec 3); the profile
    definitions of the backend are missing from the source tree. *)
Record ExerciseProfile : Type := {
  variant_id : string;
  landmark_triplet : string * string * string;
  contracted_threshold : Q;
  extended_threshold : Q;
  counting_direction : Direction;
  calories_per_rep : Q
}.

(** Modelled from the spec: RepCounterState (spec 3). *)
Record RepCounterState : Type := {
  stage : Stage;
  rep_count : nat;
  angle_history : list Q
}.

(** Modelled from the spec: the state of a new counter (spec 4.3). *)
Definition initial : RepCounterState :=
  {| stage := UNKNOWN; rep_count := 0; angle_history := [] |}.

(** Modelled from the spec: the bounded history (spec 3, "bounded ordered
    sequence of the last N angle readings, oldest evicted first").  The
    capacity [N] is a parameter: the spec leaves it open. *)
Definition push_history (N : nat) (h : list Q) (theta : Q) : list Q :=
  let h' := h ++ [theta] in
  drop (length h' - N) h'.

(** Modelled from the spec: the target stage of a reading (spec 4.3):
    [theta <= Tc] contracted, [theta >= Te] extended, otherwise none. *)
Definition target_stage (p : ExerciseProfile) (theta : Q) : option Stage :=
  if Qle_bool theta (contracted_threshold p) then Some CONTRACTED
  else if Qle_bool (extended_threshold p) theta then Some EXTENDED
  else None.

(** Modelled from the spec: a transition counts when it goes in the
    configured direction; leaving UNKNOWN never counts (spec 4.3). *)
Definition counts_rep (d : Direction) (from to : Stage) : bool :=
  match d, from, to with
  | ContractedToExtended, CONTRACTED, EXTENDED => true
  | ExtendedToContracted, EXTENDED, CONTRACTED => true
  | _, _, _ => false
  end.

(** Modelled from the spec: one valid reading (spec 4.3).  The result
    pairs the new state with the rep-completed flag. *)
Definition feed (N : nat) (p : ExerciseProfile) (st : RepCounterState)
    (theta : Q) : RepCounterState * bool :=
  let h := push_history N (angle_history st) theta in
  match target_stage p theta with
  | None =>
      ({| stage := stage st; rep_count := rep_count st; angle_history := h |},
       false)
  | Some t =>
      if stage_eqb t (stage st) then
        ({| stage := stage st; rep_count := rep_count st;
            angle_history := h |}, false)
      else
        let c := counts_rep (counting_direction p) (stage st) t in
        ({| stage := t;
            rep_count := if c then S (rep_count st) else rep_count st;
            angle_history := h |}, c)
  end.

(** Modelled from the spec: an undefined reading is dropped (spec 4.3):
    no stage update, nothing appended to the history. *)
Definition observe (N : nat) (p : ExerciseProfile) (st : RepCounterState)
    (reading : option Q) : RepCounterState * bool :=
  match reading with
  | Some theta => feed N p st theta
  | None => (st, false)
  end.

(** Modelled from the spec: the reset operation (spec 4.3). *)
Definition reset (st : RepCounterState) : RepCounterState := initial.

(** A whole sequence of readings, oldest first. *)
Fixpoint run (N : nat) (p : ExerciseProfile) (st : RepCounterState)
    (readings : list (option Q)) : RepCounterState :=
  match readings with
  | [] => st
  | r :: rest => run N p (fst (observe N p st r)) rest
  end.

(** The stage changes seen along a sequence of readings. *)
Fixpoint stage_changes (N : nat) (p : ExerciseProfile) (st : RepCounterState)
    (readings : list (option Q)) : nat :=
  match readings with
  | [] => 0
  | r :: rest =>
      let st' := fst (observe N p st r) in
      (if stage_eqb (stage st') (stage st) then 0 else 1)%nat
      + stage_changes N p st' rest
  end.

(** The count after each reading of a sequence, oldest first. *)
Fixpoint counts (N : nat) (p : ExerciseProfile) (st : RepCounterState)
    (angles : list Q) : list nat :=
  match angles with
  | [] => []
  | theta :: rest =>
      let st' := fst (feed N p st theta) in
      rep_count st' :: counts N p st' rest
  end.

(** The thresholds reached along a sequence of readings, in order; a
    reading inside the band reaches none. *)
Definition extremes (p : ExerciseProfile) (angles : list Q) : list Stage :=
  omap (target_stage p) angles.

(** The two ends of the movement for a counting direction: a cycle runs
    from the far end to the near end. *)
Definition far_end (d : Direction) : Stage :=
  match d with
  | ExtendedToContracted => EXTENDED
  | ContractedToExtended => CONTRACTED
  end.

Definition near_end (d : Direction) : Stage :=
  match d with
  | ExtendedToContracted => CONTRACTED
  | ContractedToExtended => EXTENDED
  end.

(** The full cycles along a sequence of stages: the places where the far
    end of the movement is directly followed by the near end. *)
Definition full_cycles (d : Direction) (stages : list Stage) : nat :=
  length (List.filter
            (fun ab => stage_eqb (fst ab) (far_end d)
                       && stage_eqb (snd ab) (near_end d))
            (List.combine stages (tl stages))).

(** A reading strictly inside the hysteresis band. *)
Definition in_band (p : ExerciseProfile) (theta : Q) : Prop :=
  contracted_threshold p < theta /\ theta < extended_threshold p.

(** Modelled from the spec: the two profiles of the scenarios of spec 8,
    with the thresholds of [backend_v2/README.md] (30 and 160 degrees for
    the curl, 90 and 160 for the squat). *)
Definition bicep_curl_left : ExerciseProfile :=
  {| variant_id := "bicep_curl_left";
     landmark_triplet := ("left_shoulder", "left_elbow", "left_wrist");
     contracted_threshold := 30;
     extended_threshold := 160;
     counting_direction := ExtendedToContracted;
     calories_per_rep := 1 # 2 |}.

Definition squat_both : ExerciseProfile :=
  {| variant_id := "squat_both";
     landmark_triplet := ("left_hip", "left_knee", "left_ankle");
     contracted_threshold := 90;
     extended_threshold := 160;
     counting_direction := ContractedToExtended;
     calories_per_rep := 1 # 3 |}.

End RepCounter.

(* ===================================================================== *)
(** ** ExerciseAnalyzer: profile + counter + calories *)
(* ===================================================================== *)

Module ExerciseAnalyzer.
Import RepCounter.

(** Modelled from the spec: a landmark and a landmark set (spec 3); pose
    extraction is an external component. *)
Record Landmark : Type := {
  lm_x : Q;
  lm_y : Q;
  lm_z : option Q;
  lm_confidence : Q
}.

(** Modelled from the spec: the tunable parts the spec leaves open: the
    history capacity, the minimum confidence, and AngleGeometry (spec 4.1),
    a trigonometric function on floating-point coordinates that returns
    the undefined sentinel ([None]) on degenerate input. *)
Record Params : Type := {
  history_capacity : nat;
  min_confidence : Q;
  joint_angle : Landmark -> Landmark -> Landmark -> option Q
}.

(** Modelled from the spec: the state an analyzer owns (spec 4.4). *)
Record AnalyzerState : Type := {
  profile : ExerciseProfile;
  counter : RepCounterState;
  calorie_total : Q;
  weight_factor : Q
}.

(** Modelled from the spec: the per-frame result (spec 4.4). *)
Record FrameResult : Type := {
  fr_angle : option Q;
  fr_stage : Stage;
  fr_rep_count : nat;
  fr_rep_completed : bool;
  fr_calories_delta : Q
}.

(** Modelled from the spec: a new analyzer for a profile and a bodyweight
    factor (spec 4.4): a counter in its initial state, no calories. *)
Definition create (p : ExerciseProfile) (w : Q) : AnalyzerState :=
  {| profile := p; counter := RepCounter.initial; calorie_total := 0;
     weight_factor := w |}.

(** Modelled from the spec: the analyzer on a reading (spec 4.4): no
    reading holds the stored state; otherwise the counter advances and a
    completed rep adds the scaled [calories_per_rep]. *)
Definition analyze_reading (N : nat) (a : AnalyzerState)
    (reading : option Q) : AnalyzerState * FrameResult :=
  match reading with
  | None =>
      (a, {| fr_angle := None;
             fr_stage := stage (counter a);
             fr_rep_count := rep_count (counter a);
             fr_rep_completed := false;
             fr_calories_delta := 0 |})
  | Some theta =>
      let '(c, done) := feed N (profile a) (counter a) theta in
      let delta :=
        if done then calories_per_rep (profile a) * weight_factor a else 0 in
      ({| profile := profile a; counter := c;
          calorie_total := calorie_total a + delta;
          weight_factor := weight_factor a |},
       {| fr_angle := Some theta;
          fr_stage := stage c;
          fr_rep_count := rep_count c;
          fr_rep_completed := done;
          fr_calories_delta := delta |})
  end.

(** Modelled from the spec: [reset()] (spec 4.4). *)
Definition reset (a : AnalyzerState) : AnalyzerState :=
  {| profile := profile a; counter := RepCounter.reset (counter a);
     calorie_total := 0; weight_factor := weight_factor a |}.

Section WithParams.
Context (P : Params).

(** Modelled from the spec: a landmark is usable when it is present with
    at least the minimum confidence (spec 4.4). *)
Definition usable (lms : gmap string Landmark) (name : string)
    : option Landmark :=
  match lms !! name with
  | Some l => if Qle_bool (min_confidence P) (lm_confidence l)
              then Some l else None
  | None => None
  end.

(** Modelled from the spec: resolving the triplet of a profile. *)
Definition resolve (p : ExerciseProfile) (lms : gmap string Landmark)
    : option (Landmark * Landmark * Landmark) :=
  let '(a, b, c) := landmark_triplet p in
  match usable lms a, usable lms b, usable lms c with
  | Some la, Some lb, Some lc => Some (la, lb, lc)
  | _, _, _ => None
  end.

(** Modelled from the spec: the reading of a frame (spec 4.1, 4.4):
    [None] when a landmark is unusable or the geometry is degenerate. *)
Definition measure (p : ExerciseProfile) (lms : gmap string Landmark)
    : option Q :=
  match resolve p lms with
  | Some (la, lb, lc) => joint_angle P la lb lc
  | None => None
  end.

(** A landmark that is absent or below the minimum confidence. *)
Definition unusable (lms : gmap string Landmark) (name : string) : Prop :=
  lms !! name = None
  \/ exists l, lms !! name = Some l /\ lm_confidence l < min_confidence P.

(** A frame on which a landmark of the triplet of [p] is unusable. *)
Definition lacks_landmark (p : ExerciseProfile) (lms : gmap string Landmark)
    : Prop :=
  unusable lms (fst (fst (landmark_triplet p)))
  \/ unusable lms (snd (fst (landmark_triplet p)))
  \/ unusable lms (snd (landmark_triplet p)).

(** Modelled from the spec: [analyze(landmark_set)] (spec 4.4). *)
Definition analyze (a : AnalyzerState) (lms : gmap string Landmark)
    : AnalyzerState * FrameResult :=
  analyze_reading (history_capacity P) a (measure (profile a) lms).

(** A sequence of landmark sets, oldest first. *)
Fixpoint analyze_all (a : AnalyzerState)
    (frames : list (gmap string Landmark)) : AnalyzerState :=
  match frames with
  | [] => a
  | f :: rest => analyze_all (fst (analyze a f)) rest
  end.

End WithParams.

(** *** Values used in examples *)

(** A stand-in for the geometry: every triple reads as a right angle. *)
Definition demo_params : Params :=
  {| history_capacity := 5;
     min_confidence := 1 # 2;
     joint_angle := fun _ _ _ => Some 90 |}.

Definition seen (x y : Q) (confidence : Q) : Landmark :=
  {| lm_x := x; lm_y := y; lm_z := None; lm_confidence := confidence |}.

(** The left arm with the wrist hardly visible. *)
Definition wrist_hidden : gmap string Landmark :=
  <["left_shoulder" := seen (1 # 2) (1 # 4) (9 # 10)]>
    (<["left_elbow" := seen (1 # 2) (1 # 2) (9 # 10)]>
       (<["left_wrist" := seen (1 # 2) (3 # 4) (1 # 10)]> ∅)).

(** A left-curl analyzer in the middle of a set. *)
Definition mid_curl : AnalyzerState :=
  {| profile := bicep_curl_left;
     counter := {| stage := EXTENDED; rep_count := 3;
                   angle_history := [25; 170] |};
     calorie_total := 3 # 2;
     weight_factor := 1 |}.

End ExerciseAnalyzer.

(* ===================================================================== *)
(** ** ExerciseTracker: the analyzers behind the HTTP API *)
(* ===================================================================== *)

Module ExerciseTracker.
Import RepCounter ExerciseAnalyzer.

Inductive EngineError : Type :=
| NotFound
| ExerciseNotSelected.

(** Modelled from the spec: the analyzers of spec 4.4 as
    [backend_v2/README.md] exposes them
    ([modules/exercise/tracker.py] is missing from the source tree): one
    [exercise_tracker] whose analyzers are addressed by exercise name
    ([exercise_tracker.analyze_frame("bicep_curl", landmarks)],
    [POST /api/exercise/analyze/{exercise_name}]).  This is not the
    session registry of spec 4.5: there is no session id and no
    SessionNotFound here.  It serves for what one analyzer does on one
    frame and on a reset; nothing about sessions is settled on it. *)
Record Tracker : Type := {
  catalog : gmap string ExerciseProfile;
  analyzers : gmap string AnalyzerState
}.

(** Modelled from the spec: [POST /api/exercise/select/{name}] (spec 4.2,
    4.5): unknown names are rejected; a known name gets its analyzer
    created on first use and reused later. *)
Definition load_exercise (w : Q) (name : string) (t : Tracker)
    : EngineError + Tracker :=
  match catalog t !! name with
  | None => inl NotFound
  | Some p =>
      match analyzers t !! name with
      | Some _ => inr t
      | None =>
          inr {| catalog := catalog t;
                 analyzers := <[name := create p w]> (analyzers t) |}
      end
  end.

(** Modelled from the spec: [POST /api/exercise/analyze/{name}] on the
    reading of the frame: the analyzer named in the path analyzes it
    (spec 4.4); the names come from the catalog (spec 4.2). *)
Definition analyze_frame (N : nat) (name : string) (reading : option Q)
    (t : Tracker) : EngineError + (Tracker * FrameResult) :=
  match catalog t !! name with
  | None => inl NotFound
  | Some _ =>
      match analyzers t !! name with
      | None => inl ExerciseNotSelected
      | Some a =>
          let '(a', r) := analyze_reading N a reading in
          inr ({| catalog := catalog t;
                  analyzers := <[name := a']> (analyzers t) |}, r)
      end
  end.

(** Modelled from the spec: [POST /api/exercise/reset/{name}] (spec 4.4,
    [reset()]). *)
Definition reset_exercise (name : string) (t : Tracker)
    : EngineError + Tracker :=
  match analyzers t !! name with
  | None => inl NotFound
  | Some a =>
      inr {| catalog := catalog t;
             analyzers := <[name := ExerciseAnalyzer.reset a]> (analyzers t) |}
  end.

(** The count the tracker holds for an exercise. *)
Definition reps_of (name : string) (t : Tracker) : option nat :=
  (fun a => rep_count (counter a)) <$> (analyzers t !! name).

Definition stage_label (s : Stage) : string :=
  match s with
  | UNKNOWN => "unknown"
  | CONTRACTED => "contracted"
  | EXTENDED => "extended"
  end.

End ExerciseTracker.

(* ===================================================================== *)
(** ** HTTP: what a request can come back with *)
(* ===================================================================== *)

Module Http.

(** The fate of [await fetch(...)] followed by [await response.json()]:
    the promise rejects with an error message, the response is not [ok]
    and carries a status text, or it is [ok] and carries a JSON body. *)
Inductive Fetch (A : Type) : Type :=
| Rejected (message : string)
| NotOk (statusText : string)
| Ok (json : A).

Arguments Rejected {A} message.
Arguments NotOk {A} statusText.
Arguments Ok {A} json.

(** The body of [POST /api/exercise/analyze/{name}]. *)
Record AnalyzeResult : Type := {
  success : bool;
  reps : Z;
  stage : string;
  feedback : option string;
  angle : option Q;
  rep_completed : bool;
  error : option string
}.

End Http.

(* ===================================================================== *)
(** ** RepCountingService (services/repCountingService.js) *)
(* ===================================================================== *)

Module RepCountingService.
Import JS Http.

(** The three callback slots; a registered function is named by a number. *)
Record Callbacks : Type := {
  onRepDetected : option nat;
  onFormFeedback : option nat;
  onError : option nat
}.

(** A call made through [this.callbacks.f?.(...)]. *)
Inductive Event : Type :=
| RepDetected (h : nat) (count : Z) (stage : string)
| FormFeedback (h : nat) (text : string)
| ErrorReported (h : nat) (message : string).

Record Service : Type := {
  isActive : bool;
  currentExercise : option string;
  repCount : Z;
  sessionId : jsval;
  websocket : option nat;
  callbacks : Callbacks
}.

(** [constructor()] *)
Definition new : Service :=
  {| isActive := false;
     currentExercise := None;
     repCount := 0;
     sessionId := JNull;
     websocket := None;
     callbacks := {| onRepDetected := None; onFormFeedback := None;
                     onError := None |} |}.

(** [this.callbacks.onError?.(message)] *)
Definition report_error (s : Service) (message : string) : list Event :=
  match onError (callbacks s) with
  | Some h => [ErrorReported h message]
  | None => []
  end.

(** [{ ...this.callbacks, ...callbacks }]: a key of the argument, when
    present, overrides the slot (also with [null]). *)
Definition merge_slot (old : option nat) (new : option (option nat))
    : option nat :=
  match new with
  | Some v => v
  | None => old
  end.

Record CallbacksArg : Type := {
  arg_onRepDetected : option (option nat);
  arg_onFormFeedback : option (option nat);
  arg_onError : option (option nat)
}.

Definition merge_callbacks (c : Callbacks) (a : CallbacksArg) : Callbacks :=
  {| onRepDetected := merge_slot (onRepDetected c) (arg_onRepDetected a);
     onFormFeedback := merge_slot (onFormFeedback c) (arg_onFormFeedback a);
     onError := merge_slot (onError c) (arg_onError a) |}.

Inductive InitResult : Type :=
| InitOk (message : string)
| InitFailed (error : string).

Inductive StartResult : Type :=
| StartOk (sessionId : jsval)
| StartFailed (error : string).

Record FrameReport : Type := {
  rp_repCount : Z;
  rp_stage : string;
  rp_feedback : option string;
  rp_angle : option Q;
  rp_rep_completed : bool
}.

Inductive ProcessResult : Type :=
| ProcessOk (r : FrameReport)
| ProcessFailed (error : option string).

Inductive EndResult : Type :=
| EndNoSession (message : string)
| EndOk (finalRepCount : Z) (sessionData : jsval)
| EndFailed (error : string).

(** The [success] field of the object each method returns. *)
Definition start_success (r : StartResult) : bool :=
  match r with
  | StartOk _ => true
  | StartFailed _ => false
  end.

Definition process_success (r : ProcessResult) : bool :=
  match r with
  | ProcessOk _ => true
  | ProcessFailed _ => false
  end.

Definition end_success (r : EndResult) : bool :=
  match r with
  | EndNoSession _ | EndOk _ _ => true
  | EndFailed _ => false
  end.

(** The server is a state machine over its own state [B]; each endpoint
    sees what the request carries and nothing else.  [Img] is the type
    of frames. *)
Section WithBackend.
Context {B Img : Type}.
(* POST /api/exercise/select/{exerciseType} *)
Context (select : string -> B -> Fetch jsval * B).
(* POST /api/session/start with body {exercise_type, session_token};
   the body that comes back is read at [session_id] *)
Context (session_start : string -> string -> B -> Fetch jsval * B).
(* POST /api/exercise/analyze/{currentExercise}, form field image_data *)
Context (analyze : string -> Img -> B -> Fetch AnalyzeResult * B).
(* POST /api/session/end/{sessionId} *)
Context (session_end : jsval -> B -> Fetch jsval * B).

(** [initialize(exerciseType, callbacks)] *)
Definition initialize (exerciseType : string) (cbs : CallbacksArg)
    (s : Service) (b : B) : Service * B * InitResult * list Event :=
  let s1 := {| isActive := isActive s;
               currentExercise := Some exerciseType;
               repCount := 0;
               sessionId := sessionId s;
               websocket := websocket s;
               callbacks := merge_callbacks (callbacks s) cbs |} in
  match select exerciseType b with
  | (Rejected msg, b') => (s1, b', InitFailed msg, report_error s1 msg)
  | (NotOk st, b') =>
      let msg := ("Failed to select exercise: " ++ st)%string in
      (s1, b', InitFailed msg, report_error s1 msg)
  | (Ok _, b') =>
      (s1, b', InitOk (exerciseType ++ " ready for tracking")%string, [])
  end.

(** [startSession(sessionToken)] *)
Definition startSession (sessionToken : string) (s : Service) (b : B)
    : Service * B * StartResult * list Event :=
  match currentExercise s with
  | Some ex =>
      if String.eqb ex "" then
        let msg := "No exercise selected. Call initialize() first." in
        (s, b, StartFailed msg, report_error s msg)
      else
        match session_start ex sessionToken b with
        | (Rejected msg, b') => (s, b', StartFailed msg, report_error s msg)
        | (NotOk st, b') =>
            let msg := ("Failed to start session: " ++ st)%string in
            (s, b', StartFailed msg, report_error s msg)
        | (Ok session_id, b') =>
            ({| isActive := true;
                currentExercise := currentExercise s;
                repCount := repCount s;
                sessionId := session_id;
                websocket := websocket s;
                callbacks := callbacks s |}, b', StartOk session_id, [])
        end
  | None =>
      let msg := "No exercise selected. Call initialize() first." in
      (s, b, StartFailed msg, report_error s msg)
  end.

(** The part of [processFrame] that runs once the body of the analysis
    response is at hand ([if (result.success) ... else ...]). *)
Definition absorb (result : AnalyzeResult) (s : Service)
    : Service * ProcessResult * list Event :=
  if success result then
    let '(s1, ev1) :=
      if (repCount s <? reps result)%Z then
        ({| isActive := isActive s;
            currentExercise := currentExercise s;
            repCount := reps result;
            sessionId := sessionId s;
            websocket := websocket s;
            callbacks := callbacks s |},
         match onRepDetected (callbacks s) with
         | Some h => [RepDetected h (reps result) (stage result)]
         | None => []
         end)
      else (s, []) in
    let ev2 :=
      match feedback result, onFormFeedback (callbacks s) with
      | Some fb, Some h =>
          if String.eqb fb "" then [] else [FormFeedback h fb]
      | _, _ => []
      end in
    (s1,
     ProcessOk {| rp_repCount := repCount s1;
                  rp_stage := stage result;
                  rp_feedback := feedback result;
                  rp_angle := angle result;
                  rp_rep_completed := rep_completed result |},
     ev1 ++ ev2)
  else (s, ProcessFailed (error result), []).

(** [processFrame(imageData)] *)
Definition processFrame (imageData : Img) (s : Service) (b : B)
    : Service * B * ProcessResult * list Event :=
  if negb (isActive s) || negb (truthy_str (currentExercise s)) then
    (s, b, ProcessFailed (Some "Session not active"), [])
  else
    match currentExercise s with
    | None => (s, b, ProcessFailed (Some "Session not active"), [])
    | Some ex =>
        match analyze ex imageData b with
        | (Rejected msg, b') =>
            (s, b', ProcessFailed (Some msg), report_error s msg)
        | (NotOk st, b') =>
            let msg := ("Analysis failed: " ++ st)%string in
            (s, b', ProcessFailed (Some msg), report_error s msg)
        | (Ok result, b') =>
            let '(s', r, ev) := absorb result s in (s', b', r, ev)
        end
    end.

(** [endSession()] *)
Definition endSession (s : Service) (b : B)
    : Service * B * EndResult * list Event :=
  if negb (truthy (sessionId s)) then
    (s, b, EndNoSession "No active session", [])
  else
    match session_end (sessionId s) b with
    | (Rejected msg, b') => (s, b', EndFailed msg, report_error s msg)
    | (NotOk st, b') =>
        let msg := ("Failed to end session: " ++ st)%string in
        (s, b', EndFailed msg, report_error s msg)
    | (Ok data, b') =>
        ({| isActive := false;
            currentExercise := currentExercise s;
            repCount := 0;
            sessionId := JNull;
            websocket := websocket s;
            callbacks := callbacks s |},
         b', EndOk (repCount s) data, [])
    end.

End WithBackend.

(** [resetCount()] *)
Definition resetCount (s : Service) : Service :=
  {| isActive := isActive s;
     currentExercise := currentExercise s;
     repCount := 0;
     sessionId := sessionId s;
     websocket := websocket s;
     callbacks := callbacks s |}.

(** [cleanup()] *)
Definition cleanup (s : Service) : Service :=
  {| isActive := false;
     currentExercise := currentExercise s;
     repCount := 0;
     sessionId := JNull;
     websocket := None;
     callbacks := callbacks s |}.

(** [processFrame] over a list of frames, oldest first; the reports are
    returned in the same order. *)
Fixpoint processFrames {B Img : Type}
    (analyze : string -> Img -> B -> Fetch AnalyzeResult * B)
    (frames : list Img) (s : Service) (b : B)
    : Service * B * list ProcessResult :=
  match frames with
  | [] => (s, b, [])
  | f :: rest =>
      let '(s1, b1, r, _) := processFrame analyze f s b in
      let '(s2, b2, rs) := processFrames analyze rest s1 b1 in
      (s2, b2, r :: rs)
  end.

(** The replies the server gives to a list of frames sent for the
    exercise [ex], oldest first. *)
Fixpoint replies {B Img : Type}
    (analyze : string -> Img -> B -> Fetch AnalyzeResult * B)
    (ex : string) (frames : list Img) (b : B) : list (Fetch AnalyzeResult) :=
  match frames with
  | [] => []
  | f :: rest =>
      let '(reply, b') := analyze ex f b in
      reply :: replies analyze ex rest b'
  end.

(** The larger of a count and the count of a successful analysis. *)
Definition raise (count : Z) (reply : Fetch AnalyzeResult) : Z :=
  match reply with
  | Ok result => if success result then Z.max count (reps result) else count
  | _ => count
  end.

(** The state of the server after the requests for a list of frames sent
    for the exercise [ex], oldest first. *)
Fixpoint served {B Img : Type}
    (analyze : string -> Img -> B -> Fetch AnalyzeResult * B)
    (ex : string) (frames : list Img) (b : B) : B :=
  match frames with
  | [] => b
  | f :: rest => served analyze ex rest (snd (analyze ex f b))
  end.

(** The count that [processFrame] hands back with a frame, if any. *)
Definition observed (r : ProcessResult) : option Z :=
  match r with
  | ProcessOk rep => Some (rp_repCount rep)
  | ProcessFailed _ => None
  end.

(** Every reply of the list is a successful analysis, and the counts
    they carry are [counts], in order. *)
Definition reports_counts (replies : list (Fetch AnalyzeResult))
    (counts : list Z) : Prop :=
  Forall2 (fun reply c =>
             exists result,
               reply = Ok result /\ success result = true
               /\ reps result = c)
    replies counts.

(** A sequence of counts that starts at or above [start] and never goes
    down. *)
Fixpoint climbing (start : Z) (counts : list Z) : Prop :=
  match counts with
  | [] => True
  | c :: rest => (start <= c)%Z /\ climbing c rest
  end.

(** *** Servers and services used in examples *)

(** A server that answers each frame with the reply the frame stands
    for. *)
Definition replay_analysis (ex : string) (reply : Fetch AnalyzeResult)
    (b : unit) : Fetch AnalyzeResult * unit :=
  (reply, b).

(** An analysis that reports [n] reps at stage [st]. *)
Definition counted (n : Z) (st : string) : AnalyzeResult :=
  {| success := true; reps := n; stage := st; feedback := None;
     angle := None; rep_completed := false; error := None |}.

(** An analysis that the server could not carry out. *)
Definition refused (why : string) : AnalyzeResult :=
  {| success := false; reps := 0; stage := ""; feedback := None;
     angle := None; rep_completed := false; error := Some why |}.

(** A server that accepts every request to end a session. *)
Definition accepting_end (sid : jsval) (b : unit) : Fetch jsval * unit :=
  (Ok (JStr "ended"), b).

(** A server that knows no session at all. *)
Definition rejecting_end (sid : jsval) (b : unit) : Fetch jsval * unit :=
  (NotOk "Not Found", b).

(** A server that opens a session for every request and names it
    after the token. *)
Definition accepting_start (ex token : string) (b : unit)
    : Fetch jsval * unit :=
  (Ok (JStr ("session-of-" ++ token)), b).

(** A server that refuses every selection. *)
Definition refusing_select (ex : string) (b : unit) : Fetch jsval * unit :=
  (NotOk "Not Found", b).

(** The callbacks argument that registers only an error handler. *)
Definition only_onError (h : nat) : CallbacksArg :=
  {| arg_onRepDetected := None; arg_onFormFeedback := None;
     arg_onError := Some (Some h) |}.

(** A server whose start response carries no session id. *)
Definition anonymous_start (ex token : string) (b : unit)
    : Fetch jsval * unit :=
  (Ok JUndefined, b).

(** A service with an open session and four reps counted. *)
Definition busy : Service :=
  {| isActive := true;
     currentExercise := Some "squat";
     repCount := 4;
     sessionId := JStr "session-1";
     websocket := None;
     callbacks := {| onRepDetected := Some 1%nat; onFormFeedback := None;
                     onError := Some 2%nat |} |}.

End RepCountingService.

(* ===================================================================== *)
(** ** WorkoutService (services/workoutService.js) *)
(* ===================================================================== *)

Module WorkoutService.
Import JS.

(** An axios call resolves with [response.data], or throws an error that
    may carry [response.data.detail] and a [message].  Every call of the
    service goes through [apiClient]; the [post] and [get] arguments of
    the methods below stand for the methods of the [apiClient] of one
    browser, its request interceptor included. *)
Inductive Axios (A : Type) : Type :=
| Resolved (data : A)
| Thrown (detail message : jsval).

Arguments Resolved {A} data.
Arguments Thrown {A} detail message.

(** What every method of the service returns: [{success: true, ...}] or
    [{success: false, error}]. *)
Inductive Reply (A : Type) : Type :=
| Success (payload : A)
| Failure (error : jsval).

Arguments Success {A} payload.
Arguments Failure {A} error.

(** [error.response?.data?.detail || error.message || fallback] *)
Definition error_text (detail message : jsval) (fallback : string) : jsval :=
  js_or (js_or detail message) (JStr fallback).

(** The body of the analysis response, read field by field by the page. *)
Record FrameData : Type := {
  fd_success : jsval;
  fd_reps : jsval;
  fd_stage : jsval;
  fd_angle : jsval;
  fd_calories : jsval;
  fd_processed_image : option string
}.

(** The body sent with [POST /api/session/end/{sessionId}]. *)
Record SessionSummary : Type := {
  total_reps : jsval;
  calories_burned : jsval;
  exercises_performed : list (string * (jsval * jsval))
}.

(** The request interceptor of [apiClient] (lines 15-21): the value of
    [localStorage.getItem('sessionToken')], [null] or a string, becomes
    the query parameter [session_token] when it is truthy; otherwise the
    request goes out without the parameter. *)
Definition session_token_param (sessionToken : option string)
    : option string :=
  match sessionToken with
  | Some t => if String.eqb t "" then None else Some t
  | None => None
  end.

(** [apiClient.post] on the analysis endpoint, in a browser whose
    [localStorage] holds [sessionToken]: the endpoint is handed the query
    parameter, the exercise name of the path and the image.  [R] is what
    comes back; for a server with a state of its own it is a function of
    that state. *)
Definition apiClient_post {Img R : Type}
    (endpoint : option string -> string -> Img -> R)
    (sessionToken : option string) : string -> Img -> R :=
  endpoint (session_token_param sessionToken).

(** [analyzeFrame(exerciseType, imageBlob)]: the request names the
    exercise in its path and carries the image; [post] is the
    [apiClient.post] of the browser, interceptor included
    ([apiClient_post]).  Neither the session object of the workout nor
    its [session_id] is an argument. *)
Definition analyzeFrame {Img : Type}
    (post : string -> Img -> Axios FrameData)
    (exerciseType : string) (imageBlob : Img) : Reply FrameData :=
  match post exerciseType imageBlob with
  | Resolved data => Success data
  | Thrown d m => Failure (error_text d m "Frame analysis failed")
  end.

(** [analyzeFrame] in a browser whose [localStorage] holds
    [sessionToken], in front of a server with a state of its own: the
    reply, and the state the server is left in. *)
Definition analyzeFrame_on {B Img : Type}
    (endpoint : option string -> string -> Img -> B -> Axios FrameData * B)
    (sessionToken : option string) (exerciseType : string) (imageBlob : Img)
    (b : B) : Reply FrameData * B :=
  let '(r, b') :=
    apiClient_post endpoint sessionToken exerciseType imageBlob b in
  (analyzeFrame (fun _ _ => r) exerciseType imageBlob, b').

(** [startSession(exerciseType, planId)]; the reply carries
    [response.data.session]. *)
Definition startSession
    (post : string -> jsval -> Axios (option jsval))
    (exerciseType : string) (planId : jsval) : Reply (option jsval) :=
  match post exerciseType planId with
  | Resolved session => Success session
  | Thrown d m => Failure (error_text d m "Failed to start session")
  end.

(** [endSession(sessionId, sessionData)] *)
Definition endSession
    (post : jsval -> SessionSummary -> Axios jsval)
    (sessionId : jsval) (sessionData : SessionSummary) : Reply jsval :=
  match post sessionId sessionData with
  | Resolved session => Success session
  | Thrown d m => Failure (error_text d m "Failed to end session")
  end.

(** [resetExercise(exerciseType)] *)
Definition resetExercise
    (post : string -> Axios jsval) (exerciseType : string) : Reply jsval :=
  match post exerciseType with
  | Resolved data => Success data
  | Thrown d m => Failure (error_text d m "Failed to reset exercise")
  end.

(** [getAvailableExercises()]; the reply carries
    [response.data.exercises || []]. *)
Definition getAvailableExercises (get : Axios (option (list string)))
    : Reply (list string) :=
  match get with
  | Resolved exercises => Success (default [] exercises)
  | Thrown d m => Failure (error_text d m "Failed to get exercises")
  end.

(** [healthCheck()] *)
Definition healthCheck (get : Axios jsval) : Reply jsval :=
  match get with
  | Resolved status => Success status
  | Thrown d m => Failure (error_text d m "Health check failed")
  end.

End WorkoutService.

(* ===================================================================== *)
(** ** WorkoutContext (contexts/WorkoutContext.js) *)
(* ===================================================================== *)

Module WorkoutContext.
Import JS WorkoutService.

Record ExerciseData : Type := {
  reps : jsval;
  stage : jsval;
  angle : jsval;
  calories : jsval
}.

(** [{ reps: 0, stage: 'ready', angle: null, calories: 0 }] *)
Definition initialExerciseData : ExerciseData :=
  {| reps := JNum 0; stage := JStr "ready"; angle := JNull;
     calories := JNum 0 |}.

(** An object literal with some of the keys of [ExerciseData]. *)
Record PartialData : Type := {
  p_reps : option jsval;
  p_stage : option jsval;
  p_angle : option jsval;
  p_calories : option jsval
}.

Definition spread (old : jsval) (new : option jsval) : jsval :=
  match new with
  | Some v => v
  | None => old
  end.

(** The state of the provider that the workout page reads and writes.
    A session object is kept as the value of its [session_id];
    [currentSession] is [None] for [null] and [undefined]. *)
Record State : Type := {
  currentSession : option jsval;
  exerciseData : ExerciseData;
  isWorkoutActive : bool;
  selectedExercise : string
}.

Definition with_exerciseData (d : ExerciseData) (c : State) : State :=
  {| currentSession := currentSession c;
     exerciseData := d;
     isWorkoutActive := isWorkoutActive c;
     selectedExercise := selectedExercise c |}.

(** [updateExerciseData(newData)]:
    [setExerciseData(prev => ({ ...prev, ...newData }))] *)
Definition updateExerciseData (newData : PartialData) (c : State) : State :=
  let prev := exerciseData c in
  with_exerciseData
    {| reps := spread (reps prev) (p_reps newData);
       stage := spread (stage prev) (p_stage newData);
       angle := spread (angle prev) (p_angle newData);
       calories := spread (calories prev) (p_calories newData) |} c.

(** [startWorkoutSession(exerciseType, planId)] *)
Definition startWorkoutSession
    (post : string -> jsval -> Axios (option jsval))
    (exerciseType : string) (planId : jsval) (c : State)
    : State * Reply unit :=
  match WorkoutService.startSession post exerciseType planId with
  | Success session =>
      ({| currentSession := session;
          exerciseData := initialExerciseData;
          isWorkoutActive := true;
          selectedExercise := exerciseType |}, Success tt)
  | Failure e => (c, Failure e)
  end.

(** The summary that [endWorkoutSession] sends. *)
Definition summary (c : State) : SessionSummary :=
  {| total_reps := reps (exerciseData c);
     calories_burned := calories (exerciseData c);
     exercises_performed :=
       [(selectedExercise c,
         (reps (exerciseData c), calories (exerciseData c)))] |}.

(** [endWorkoutSession()]; the third component is the summary that went
    out, if a request was made. *)
Definition endWorkoutSession
    (post : jsval -> SessionSummary -> Axios jsval) (c : State)
    : State * Reply jsval * option SessionSummary :=
  match currentSession c with
  | None => (c, Failure (JStr "No active session"), None)
  | Some sid =>
      match WorkoutService.endSession post sid (summary c) with
      | Success session =>
          ({| currentSession := None;
              exerciseData := initialExerciseData;
              isWorkoutActive := false;
              selectedExercise := selectedExercise c |},
           Success session, Some (summary c))
      | Failure e => (c, Failure e, Some (summary c))
      end
  end.

(** [resetExercise()] *)
Definition resetExercise (post : string -> Axios jsval) (c : State)
    : State * Reply unit :=
  if String.eqb (selectedExercise c) "" then
    (c, Failure (JStr "Failed to reset exercise"))
  else
    match WorkoutService.resetExercise post (selectedExercise c) with
    | Success _ => (with_exerciseData initialExerciseData c, Success tt)
    | Failure _ => (c, Failure (JStr "Failed to reset exercise"))
    end.

(** [loadAvailableExercises()], on the list of available exercises and
    the state of the provider. *)
Definition loadAvailableExercises (get : Axios (option (list string)))
    (available : list string) (c : State) : list string * State :=
  match WorkoutService.getAvailableExercises get with
  | Success exercises =>
      (exercises,
       match exercises with
       | first :: _ =>
           if String.eqb (selectedExercise c) "" then
             {| currentSession := currentSession c;
                exerciseData := exerciseData c;
                isWorkoutActive := isWorkoutActive c;
                selectedExercise := first |}
           else c
       | [] => c
       end)
  | Failure _ => (available, c)
  end.

(** [setSelectedExercise(exercise)] *)
Definition setSelectedExercise (exercise : string) (c : State) : State :=
  {| currentSession := currentSession c;
     exerciseData := exerciseData c;
     isWorkoutActive := isWorkoutActive c;
     selectedExercise := exercise |}.

(** Two object literals spread one after the other:
    [{ ...a, ...b }]. *)
Definition overlay (a b : PartialData) : PartialData :=
  {| p_reps := match p_reps b with Some v => Some v | None => p_reps a end;
     p_stage := match p_stage b with Some v => Some v | None => p_stage a end;
     p_angle := match p_angle b with Some v => Some v | None => p_angle a end;
     p_calories :=
       match p_calories b with Some v => Some v | None => p_calories a end |}.

End WorkoutContext.

(* ===================================================================== *)
(** ** WorkoutPage (the workout session page) *)
(* ===================================================================== *)

Module WorkoutPage.
Import JS WorkoutService WorkoutContext.

(** What the [processFrame] callback of one render closes over:
    [selectedExercise] and [exerciseData] as they were in that render. *)
Record Closure : Type := {
  cl_selectedExercise : string;
  cl_exerciseData : ExerciseData
}.

(** The page: the context it reads, its own state, and the timer of
    [processingIntervalRef] together with the callback that was handed to
    [setInterval]. *)
Record Page : Type := {
  ctx : WorkoutContext.State;
  cameraActive : bool;
  backendOnline : bool;
  processingStatus : string;
  processedImage : option string;
  error : jsval;
  mounted : bool;
  processingInterval : option Closure
}.

Definition with_ctx (c : WorkoutContext.State) (p : Page) : Page :=
  {| ctx := c;
     cameraActive := cameraActive p;
     backendOnline := backendOnline p;
     processingStatus := processingStatus p;
     processedImage := processedImage p;
     error := error p;
     mounted := mounted p;
     processingInterval := processingInterval p |}.

Definition with_status (st : string) (p : Page) : Page :=
  {| ctx := ctx p;
     cameraActive := cameraActive p;
     backendOnline := backendOnline p;
     processingStatus := st;
     processedImage := processedImage p;
     error := error p;
     mounted := mounted p;
     processingInterval := processingInterval p |}.

Definition with_error (e : jsval) (p : Page) : Page :=
  {| ctx := ctx p;
     cameraActive := cameraActive p;
     backendOnline := backendOnline p;
     processingStatus := processingStatus p;
     processedImage := processedImage p;
     error := e;
     mounted := mounted p;
     processingInterval := processingInterval p |}.

(** The closure of the [processFrame] created by the render of [p]. *)
Definition render (p : Page) : Closure :=
  {| cl_selectedExercise := selectedExercise (ctx p);
     cl_exerciseData := exerciseData (ctx p) |}.

(** The object literal handed to [updateExerciseData]:
    [{ reps: data.reps || exerciseData.reps, ... }] *)
Definition frame_update (exerciseData : ExerciseData) (data : FrameData)
    : PartialData :=
  {| p_reps := Some (js_or (fd_reps data) (reps exerciseData));
     p_stage := Some (js_or (fd_stage data) (stage exerciseData));
     p_angle := Some (js_or (fd_angle data) (angle exerciseData));
     p_calories := Some (js_or (fd_calories data) (calories exerciseData)) |}.

(** [setProcessedImage(img)] for a truthy [data.processed_image]. *)
Definition show_image (img : option string) (p : Page) : Page :=
  match img with
  | Some s =>
      if String.eqb s "" then p
      else
        {| ctx := ctx p;
           cameraActive := cameraActive p;
           backendOnline := backendOnline p;
           processingStatus := processingStatus p;
           processedImage :=
             Some (if String.prefix "data:" s then s
                   else ("data:image/jpeg;base64," ++ s)%string);
           error := error p;
           mounted := mounted p;
           processingInterval := processingInterval p |}
  | None => p
  end.

Section WithFrames.
Context {Img : Type}.

(** [processFrame], run by the callback with closure [cl]; [blob] is the
    frame grabbed from the canvas, [None] when there is none. *)
Definition processFrame (cl : Closure)
    (post : string -> Img -> Axios FrameData) (blob : option Img)
    (p : Page) : Page :=
  if String.eqb (cl_selectedExercise cl) "" then p
  else
    match blob with
    | None => p
    | Some b =>
        let p1 := with_status "active" p in
        let result := analyzeFrame post (cl_selectedExercise cl) b in
        if negb (mounted p1) then p1
        else
          match result with
          | Success data =>
              if truthy (fd_success data) then
                let c' := updateExerciseData
                            (frame_update (cl_exerciseData cl) data)
                            (ctx p1) in
                with_error JNull
                  (show_image (fd_processed_image data) (with_ctx c' p1))
              else with_status "inactive" p1
          | Failure _ => with_status "inactive" p1
          end
    end.

(** One firing of the interval timer: it calls the callback it was
    given when it was set. *)
Definition tick (post : string -> Img -> Axios FrameData)
    (blob : option Img) (p : Page) : Page :=
  match processingInterval p with
  | Some cl => processFrame cl post blob p
  | None => p
  end.

(** The timer firing on a list of frames, oldest first. *)
Fixpoint ticks (post : string -> Img -> Axios FrameData)
    (blobs : list Img) (p : Page) : Page :=
  match blobs with
  | [] => p
  | b :: rest => ticks post rest (tick post (Some b) p)
  end.

End WithFrames.

(** [handleCameraStart], as created by the render [r] and run on the
    page [p]; [camera] tells whether [getUserMedia] and playback work.
    The interval, when it is set, calls the [processFrame] of [r]. *)
Definition handleCameraStart (r : Page) (camera : bool) (p : Page) : Page :=
  if cameraActive r then p
  else if negb camera then
    with_error
      (JStr "Failed to access camera. Please ensure camera permissions are granted.")
      p
  else
    let starts :=
      negb (String.eqb (selectedExercise (ctx r)) "") && backendOnline r in
    {| ctx := ctx p;
       cameraActive := true;
       backendOnline := backendOnline p;
       processingStatus := if starts then "active" else processingStatus p;
       processedImage := processedImage p;
       error := JNull;
       mounted := mounted p;
       processingInterval :=
         if starts then Some (render r) else processingInterval p |}.

(** [stopCameraAndProcessing] *)
Definition stopCameraAndProcessing (p : Page) : Page :=
  {| ctx := ctx p;
     cameraActive := false;
     backendOnline := backendOnline p;
     processingStatus := "inactive";
     processedImage := None;
     error := error p;
     mounted := mounted p;
     processingInterval := None |}.

(** [handleStartWorkout], clicked on the render of [p]. *)
Definition handleStartWorkout
    (post : string -> jsval -> Axios (option jsval)) (camera : bool)
    (p : Page) : Page :=
  if String.eqb (selectedExercise (ctx p)) "" then
    with_error (JStr "Please select an exercise first") p
  else
    match startWorkoutSession post (selectedExercise (ctx p)) JNull (ctx p) with
    | (c', Success _) =>
        let p1 := with_error JNull (with_ctx c' p) in
        if cameraActive p then p1 else handleCameraStart p camera p1
    | (_, Failure e) =>
        with_error (js_or e (JStr "Failed to start workout session")) p
    end.

(** [handleEndWorkout], clicked on the render of [p].  The handler is
    asynchronous and the interval timer keeps firing while it waits:
    [inflight] are the frames analyzed while the end request is on its
    way, [reloading] those analyzed while [endWorkoutSession], after a
    success, has written its state and awaits [loadWorkoutData()]; only
    then does the handler call [stopCameraAndProcessing()].  The summary
    is built from the data of the click's render; [endWorkoutSession]
    writes the session, the activity flag and the exercise data and leaves
    the selection alone.  Without a session no request is made and nothing
    is awaited.  The second component is the summary sent to the server,
    if any. *)
Definition handleEndWorkout {Img : Type}
    (post_end : jsval -> SessionSummary -> Axios jsval)
    (post : string -> Img -> Axios FrameData) (inflight reloading : list Img)
    (p : Page) : Page * option SessionSummary :=
  match endWorkoutSession post_end (ctx p) with
  | (c', Success _, sent) =>
      let p1 := ticks post inflight p in
      let p2 :=
        with_ctx {| currentSession := currentSession c';
                    exerciseData := exerciseData c';
                    isWorkoutActive := isWorkoutActive c';
                    selectedExercise := selectedExercise (ctx p1) |} p1 in
      (stopCameraAndProcessing (ticks post reloading p2), sent)
  | (_, Failure e, Some sent) =>
      (with_error (js_or e (JStr "Failed to end workout session"))
         (ticks post inflight p), Some sent)
  | (_, Failure e, None) =>
      (with_error (js_or e (JStr "Failed to end workout session")) p, None)
  end.

(** [checkBackendHealth()] *)
Definition checkBackendHealth (get : Axios jsval) (p : Page) : Page :=
  match WorkoutService.healthCheck get with
  | Success _ =>
      {| ctx := ctx p;
         cameraActive := cameraActive p;
         backendOnline := true;
         processingStatus := processingStatus p;
         processedImage := processedImage p;
         error := JNull;
         mounted := mounted p;
         processingInterval := processingInterval p |}
  | Failure _ =>
      {| ctx := ctx p;
         cameraActive := cameraActive p;
         backendOnline := false;
         processingStatus := processingStatus p;
         processedImage := processedImage p;
         error := JStr "Backend service is unavailable";
         mounted := mounted p;
         processingInterval := processingInterval p |}
  end.

(** [handleResetExercise], as created by the render [r] and run on the
    page [p]: the [resetExercise] of the context is the one of that render
    and asks for the exercise selected in it; what it writes on success is
    the constant initial data. *)
Definition handleResetExercise (r : Page) (post : string -> Axios jsval)
    (p : Page) : Page :=
  match WorkoutContext.resetExercise post (ctx r) with
  | (_, Success _) =>
      with_error JNull
        (with_ctx (with_exerciseData initialExerciseData (ctx p)) p)
  | (_, Failure e) =>
      with_error (js_or e (JStr "Failed to reset exercise")) p
  end.

(** [handleExerciseChange(exercise)], clicked on the render of [p]. *)
Definition handleExerciseChange (post : string -> Axios jsval)
    (camera : bool) (exercise : string) (p : Page) : Page :=
  let p1 := stopCameraAndProcessing p in
  let p2 := with_ctx (setSelectedExercise exercise (ctx p1)) p1 in
  let p3 := handleResetExercise p post p2 in
  if isWorkoutActive (ctx p) then handleCameraStart p camera p3 else p3.

(** The page as it is first mounted, with an exercise already selected
    and the health check answered. *)
Definition mount (exercise : string) (online : bool) : Page :=
  {| ctx := {| currentSession := None;
               exerciseData := initialExerciseData;
               isWorkoutActive := false;
               selectedExercise := exercise |};
     cameraActive := false;
     backendOnline := online;
     processingStatus := "inactive";
     processedImage := None;
     error := JNull;
     mounted := true;
     processingInterval := None |}.

(** The timer is running the callback with closure [cl] on a mounted
    page. *)
Definition running (cl : Closure) (p : Page) : Prop :=
  processingInterval p = Some cl
  /\ cl_selectedExercise cl <> ""%string
  /\ mounted p = true.

(** *** Servers and frames used in examples *)

(** A frame is represented by the body the server answers for it. *)
Definition replay (exercise : string) (answer : FrameData) : Axios FrameData :=
  Resolved answer.

Definition accept_start (exercise : string) (planId : jsval)
    : Axios (option jsval) :=
  Resolved (Some (JStr "session-1")).

Definition accept_end (sessionId : jsval) (sent : SessionSummary)
    : Axios jsval :=
  Resolved (JStr "stored").

Definition answer (reps : Q) (stage : string) (angle : jsval)
    (calories : jsval) : FrameData :=
  {| fd_success := JBool true;
     fd_reps := JNum reps;
     fd_stage := JStr stage;
     fd_angle := angle;
     fd_calories := calories;
     fd_processed_image := None |}.

Definition accept_reset (exercise : string) : Axios jsval :=
  Resolved (JStr "reset").

(** The numbers carried by the [calories] fields of a list of answers,
    added up: the calories of the frames when each answer carries the
    calories of its own frame. *)
Fixpoint sum_calories (answers : list FrameData) : Q :=
  match answers with
  | [] => 0
  | d :: rest =>
      match fd_calories d with
      | JNum q => q + sum_calories rest
      | _ => sum_calories rest
      end
  end.

(** The rises of the [calories] figure along a list of answers, added up,
    from the figure [prev] on: the calories of the frames when each answer
    carries the running figure of the session. *)
Fixpoint gains (prev : Q) (answers : list FrameData) : Q :=
  match answers with
  | [] => 0
  | d :: rest =>
      match fd_calories d with
      | JNum q => (q - prev) + gains q rest
      | _ => gains prev rest
      end
  end.

End WorkoutPage.

(* ===================================================================== *)
(** ** World: two rep-counting services and one tracker *)
(* ===================================================================== *)

Module World.
Import JS Http RepCounter ExerciseAnalyzer ExerciseTracker RepCountingService.

(** Modelled from the spec: the analysis endpoint served by the tracker,
    with the response body of [backend_v2/README.md].  A frame is
    represented by the reading that the pose pipeline and the geometry
    derive from it; the request names the exercise and nothing else. *)
Definition tracker_analyze (N : nat) (name : string) (reading : option Q)
    (t : Tracker) : Fetch AnalyzeResult * Tracker :=
  match analyze_frame N name reading t with
  | inl NotFound => (NotOk "Not Found", t)
  | inl ExerciseNotSelected => (NotOk "Bad Request", t)
  | inr (t', r) =>
      (Ok {| Http.success := true;
             Http.reps := Z.of_nat (fr_rep_count r);
             Http.stage := stage_label (fr_stage r);
             Http.feedback := None;
             Http.angle := fr_angle r;
             Http.rep_completed := fr_rep_completed r;
             Http.error := None |}, t')
  end.

Inductive Who : Type := SessionA | SessionB.

Definition who_eqb (a b : Who) : bool :=
  match a, b with
  | SessionA, SessionA | SessionB, SessionB => true
  | _, _ => false
  end.

Definition other (who : Who) : Who :=
  match who with
  | SessionA => SessionB
  | SessionB => SessionA
  end.

(** Two browsers, each with its own service singleton and its own
    session.  The server they talk to has its state apart. *)
Record World : Type := {
  serviceA : Service;
  serviceB : Service
}.

Definition service_of (who : Who) (w : World) : Service :=
  match who with
  | SessionA => serviceA w
  | SessionB => serviceB w
  end.

Section WithServer.
Context {B Img : Type}.
(* POST /api/exercise/analyze/{currentExercise}, form field image_data:
   the request of either browser carries the exercise name and the image *)
Context (analyze : string -> Img -> B -> Fetch AnalyzeResult * B).

(** One frame processed by one of the two sessions. *)
Definition step (who : Who) (img : Img) (w : World) (b : B) : World * B :=
  match who with
  | SessionA =>
      let '(s, b', _, _) := processFrame analyze img (serviceA w) b in
      ({| serviceA := s; serviceB := serviceB w |}, b')
  | SessionB =>
      let '(s, b', _, _) := processFrame analyze img (serviceB w) b in
      ({| serviceA := serviceA w; serviceB := s |}, b')
  end.

(** A schedule of frames, in the order they reach the server. *)
Fixpoint run (sched : list (Who * Img)) (w : World) (b : B) : World * B :=
  match sched with
  | [] => (w, b)
  | (who, img) :: rest =>
      let '(w1, b1) := step who img w b in run rest w1 b1
  end.

(** Each frame of a schedule with the reply the server gives to the
    request for it, in the order of arrival; the requests are for the
    exercise [ex]. *)
Fixpoint answers (ex : string) (sched : list (Who * Img)) (b : B)
    : list (Who * Fetch AnalyzeResult) :=
  match sched with
  | [] => []
  | (who, img) :: rest =>
      let '(reply, b') := analyze ex img b in
      (who, reply) :: answers ex rest b'
  end.

End WithServer.

(** The replies that went to one of the two sessions. *)
Definition heard (who : Who) (l : list (Who * Fetch AnalyzeResult))
    : list (Fetch AnalyzeResult) :=
  map snd (List.filter (fun x => who_eqb (fst x) who) l).

(** The frames of one session, as a schedule. *)
Definition sent_by {Img : Type} (who : Who) (frames : list Img)
    : list (Who * Img) :=
  map (pair who) frames.

(** Both sessions are open on the exercise [ex]. *)
Definition both_on (ex : string) (w : World) : Prop :=
  forall who,
    isActive (service_of who w) = true
    /\ currentExercise (service_of who w) = Some ex.

(** A service with a session open on [ex] and no rep counted yet. *)
Definition tracking (ex : string) (sid : string) : Service :=
  {| isActive := true;
     currentExercise := Some ex;
     repCount := 0;
     sessionId := JStr sid;
     websocket := None;
     callbacks := callbacks RepCountingService.new |}.

(** Two sessions that have just been opened on [ex]. *)
Definition two_on (ex : string) : World :=
  {| serviceA := tracking ex "session-a";
     serviceB := tracking ex "session-b" |}.

(** The count that a session holds after it has sent [frames], alone in
    front of the server. *)
Definition lone {B Img : Type}
    (analyze : string -> Img -> B -> Fetch AnalyzeResult * B)
    (ex : string) (frames : list Img) (b : B) : Z :=
  repCount (fst (fst (processFrames analyze frames
                        (tracking ex "session-a") b))).

(** A server for examples: it keeps one count, adds one for every frame
    marked [true], and reports the count with every reply. *)
Definition counting_server (ex : string) (rep : bool) (n : Z)
    : Fetch AnalyzeResult * Z :=
  let n' := (if rep then n + 1 else n)%Z in
  (Ok {| Http.success := true; Http.reps := n'; Http.stage := "up";
         Http.feedback := None; Http.angle := None;
         Http.rep_completed := rep; Http.error := None |}, n').

End World.

Local Close Scope Q_scope.

(* ===================================================================== *)
(** ** CalendarPage (the workout calendar) *)
(* ===================================================================== *)

Module Calendar.

(** What the calendar reads off the [Date] of a timestamp: the key
    [toISOString().split('T')[0]], and [getMonth()] and [getFullYear()]. *)
Record Stamp : Type := {
  date_key : string;
  month : nat;
  year : Z
}.

(** A session of the workout history; [None] stands for a field that is
    missing or null. *)
Record Session : Type := {
  start_time : option Stamp;
  total_reps : option Z;
  calories_estimate : option Q
}.

(** One step of the [forEach] of [workoutsByDate]. *)
Definition file_session (map : gmap string (list Session)) (session : Session)
    : gmap string (list Session) :=
  match start_time session with
  | None => map
  | Some t =>
      <[date_key t := default [] (map !! date_key t) ++ [session]]> map
  end.

(** [workoutsByDate] *)
Definition workoutsByDate (workoutHistory : list Session)
    : gmap string (list Session) :=
  foldl file_session ∅ workoutHistory.

(** [selectedDateWorkouts], with the key of the selected date if any. *)
Definition selectedDateWorkouts (selected : option string)
    (map : gmap string (list Session)) : list Session :=
  match selected with
  | None => []
  | Some key => default [] (map !! key)
  end.

(** [getWorkoutIntensity(date)], with the key of the date. *)
Definition getWorkoutIntensity (map : gmap string (list Session))
    (key : string) : nat :=
  let workouts := default [] (map !! key) in
  let totalReps :=
    foldl (fun sum w => (sum + default 0 (total_reps w))%Z) 0%Z workouts in
  if (50 <=? totalReps)%Z then 3
  else if (20 <=? totalReps)%Z then 2
  else 1.

Record MonthlyStats : Type := {
  totalWorkouts : nat;
  totalReps : Z;
  totalCalories : Z;
  activeDays : nat
}.

(** [Math.round] on a rational: the nearest integer, halves upwards. *)
Definition round (q : Q) : Z := Qfloor (q + (1 # 2))%Q.

(** One step of the [forEach] of [monthlyStats]. *)
Definition tally (currentMonth : nat) (currentYear : Z)
    (acc : nat * Z * Q * gset string) (session : Session)
    : nat * Z * Q * gset string :=
  match start_time session with
  | None => acc
  | Some d =>
      if Nat.eqb (month d) currentMonth && Z.eqb (year d) currentYear then
        let '(workouts, reps, calories, days) := acc in
        (S workouts,
         (reps + default 0 (total_reps session))%Z,
         (calories + default 0%Q (calories_estimate session))%Q,
         {[date_key d]} ∪ days)
      else acc
  end.

(** [monthlyStats], for the month and year of [currentDate]. *)
Definition monthlyStats (currentMonth : nat) (currentYear : Z)
    (workoutHistory : list Session) : MonthlyStats :=
  let '(workouts, reps, calories, days) :=
    foldl (tally currentMonth currentYear) (0, 0%Z, 0%Q, ∅) workoutHistory in
  {| totalWorkouts := workouts;
     totalReps := reps;
     totalCalories := round calories;
     activeDays := size days |}.

(** The loop shared by the two streak counters: [remaining] iterations
    are left, [i] days have been stepped back, [streak] days counted. *)
Fixpoint streak_loop (active : nat -> bool) (remaining i streak : nat) : nat :=
  match remaining with
  | O => streak
  | S k =>
      if active i then streak_loop active k (S i) (S streak)
      else if (0 <? streak)%nat then streak
      else streak_loop active k (S i) streak
  end.

(** [workoutsByDate[key] && workoutsByDate[key].length > 0] *)
Definition has_workouts (bucket : option (list Session)) : bool :=
  match bucket with
  | Some (_ :: _) => true
  | _ => false
  end.

(** [currentStreak]; [day_key i] is the key of the date [i] days before
    now. *)
Definition currentStreak (day_key : nat -> string)
    (map : gmap string (list Session)) : nat :=
  streak_loop (fun i => has_workouts (map !! day_key i)) 365 0 0.

(** The session is filed under [key]. *)
Definition filed_under (key : string) (session : Session) : bool :=
  match start_time session with
  | Some t => String.eqb (date_key t) key
  | None => false
  end.

(** The session falls in the month shown. *)
Definition in_month (currentMonth : nat) (currentYear : Z)
    (session : Session) : bool :=
  match start_time session with
  | Some d => Nat.eqb (month d) currentMonth && Z.eqb (year d) currentYear
  | None => false
  end.

(** The reps of a list of sessions, a missing count taken as 0. *)
Definition reps_of (sessions : list Session) : Z :=
  foldr (fun w sum => (default 0 (total_reps w) + sum)%Z) 0%Z sessions.

(** The day [i] days back has a workout. *)
Definition worked (day_key : nat -> string)
    (map : gmap string (list Session)) (i : nat) : bool :=
  has_workouts (map !! day_key i).

(** *** Sessions used in examples *)

Definition on_day (key : string) (m : nat) (y : Z) (reps : Z) : Session :=
  {| start_time := Some {| date_key := key; month := m; year := y |};
     total_reps := Some reps;
     calories_estimate := Some (1 # 2)%Q |}.

Definition undated : Session :=
  {| start_time := None; total_reps := Some 12%Z; calories_estimate := None |}.

(** Keys for the days before 3 May 2024. *)
Definition may_key (i : nat) : string :=
  match i with
  | 0 => "2024-05-03"
  | 1 => "2024-05-02"
  | 2 => "2024-05-01"
  | 3 => "2024-04-30"
  | _ => "earlier"
  end.

Definition spring : list Session :=
  [on_day "2024-05-02" 4 2024 30; undated; on_day "2024-04-30" 3 2024 10;
   on_day "2024-05-02" 4 2024 25; on_day "2024-05-01" 4 2024 5].

End Calendar.

(* ===================================================================== *)
(** ** Dashboard *)
(* ===================================================================== *)

Module Dashboard.

(** A session of the workout history as the dashboard reads it: the raw
    [start_time] string, if any. *)
Record Session : Type := {
  start_time : option string;
  total_reps : option Z
}.

(** [session => session.start_time] as a filter. *)
Definition dated (session : Session) : bool :=
  match start_time session with
  | Some t => negb (String.eqb t "")
  | None => false
  end.

(** [session.start_time.startsWith(dateStr)] on a dated session. *)
Definition on_date (dateStr : string) (session : Session) : bool :=
  match start_time session with
  | Some t => String.prefix dateStr t
  | None => false
  end.

(** [calculateWorkoutStreak(sessions)]; [sort] is the sort by start time,
    most recent first, and [day_key i] the date string of the day [i] days
    before today. *)
Definition calculateWorkoutStreak
    (sort : list Session -> list Session) (day_key : nat -> string)
    (sessions : list Session) : nat :=
  match sessions with
  | [] => 0
  | _ =>
      let sortedSessions := sort (List.filter dated sessions) in
      Calendar.streak_loop
        (fun i => existsb (on_date (day_key i)) sortedSessions) 30 0 0
  end.

(** *** Sessions used in examples *)

Definition started (t : string) : Session :=
  {| start_time := Some t; total_reps := Some 10%Z |}.

Definition week : list Session :=
  [started "2024-05-01T18:00:00Z"; started "2024-05-03T07:30:00Z";
   {| start_time := None; total_reps := None |};
   started "2024-05-02T12:00:00Z"].

End Dashboard.

(* ===================================================================== *)
(** ** ProfileSetup (the profile wizard) *)
(* ===================================================================== *)

Module ProfileSetup.
Local Open Scope Q_scope.

(** What a numeric field of the form holds: the empty string it starts
    with, or what [parseInt] / [parseFloat] made of the input, a number or
    [NaN]. *)
Inductive NumField : Type :=
| Blank
| NotANumber
| Num (q : Q).

Record ProfileData : Type := {
  name : string;
  age : NumField;
  gender : string;
  weight : NumField;
  height : NumField;
  fitness_goal : string;
  activity_level : string;
  medical_conditions : list string;
  dietary_preferences : list string
}.

(** The two fields [handleArrayChange] is called with. *)
Inductive ArrayField : Type := MedicalConditions | DietaryPreferences.

Definition get_array (field : ArrayField) (pd : ProfileData) : list string :=
  match field with
  | MedicalConditions => medical_conditions pd
  | DietaryPreferences => dietary_preferences pd
  end.

Definition set_array (field : ArrayField) (l : list string)
    (pd : ProfileData) : ProfileData :=
  match field with
  | MedicalConditions =>
      {| name := name pd; age := age pd; gender := gender pd;
         weight := weight pd; height := height pd;
         fitness_goal := fitness_goal pd;
         activity_level := activity_level pd;
         medical_conditions := l;
         dietary_preferences := dietary_preferences pd |}
  | DietaryPreferences =>
      {| name := name pd; age := age pd; gender := gender pd;
         weight := weight pd; height := height pd;
         fitness_goal := fitness_goal pd;
         activity_level := activity_level pd;
         medical_conditions := medical_conditions pd;
         dietary_preferences := l |}
  end.

(** [handleArrayChange(field, value, checked)] *)
Definition handleArrayChange (field : ArrayField) (value : string)
    (checked : bool) (pd : ProfileData) : ProfileData :=
  set_array field
    (if checked then get_array field pd ++ [value]
     else List.filter (fun item => negb (String.eqb item value))
            (get_array field pd))
    pd.

(** [profileData.medical_conditions.includes(condition)] *)
Definition includes (l : list string) (value : string) : bool :=
  existsb (fun item => String.eqb item value) l.

(** [!x || x < lo || x > hi] on a numeric field. *)
Definition out_of_range (x : NumField) (lo hi : Q) : bool :=
  match x with
  | Blank | NotANumber => true
  | Num q => Qeq_bool q 0 || negb (Qle_bool lo q) || negb (Qle_bool q hi)
  end.

(** [validateStep(step)]: [None] when the step is valid, otherwise the
    message handed to [setError].  [trim] is [String.prototype.trim]. *)
Definition validateStep (trim : string -> string) (step : Z)
    (pd : ProfileData) : option string :=
  if (step =? 1)%Z then
    if String.eqb (trim (name pd)) "" then Some "Please enter your name"%string
    else if out_of_range (age pd) 13 100 then
      Some "Please enter a valid age (13-100)"%string
    else if String.eqb (gender pd) "" then
      Some "Please select your gender"%string
    else None
  else if (step =? 2)%Z then
    if out_of_range (weight pd) 30 300 then
      Some "Please enter a valid weight (30-300 kg)"%string
    else if out_of_range (height pd) 100 250 then
      Some "Please enter a valid height (100-250 cm)"%string
    else None
  else if (step =? 3)%Z then
    if String.eqb (fitness_goal pd) "" then
      Some "Please select your fitness goal"%string
    else if String.eqb (activity_level pd) "" then
      Some "Please select your activity level"%string
    else None
  else None.

(** The wizard: the step shown, the error shown, the data entered. *)
Record Wizard : Type := {
  currentStep : Z;
  error : string;
  profileData : ProfileData
}.

(** [handleNext] *)
Definition handleNext (trim : string -> string) (w : Wizard) : Wizard :=
  match validateStep trim (currentStep w) (profileData w) with
  | None =>
      {| currentStep := (currentStep w + 1)%Z; error := "";
         profileData := profileData w |}
  | Some msg =>
      {| currentStep := currentStep w; error := msg;
         profileData := profileData w |}
  end.

(** [handlePrevious] *)
Definition handlePrevious (w : Wizard) : Wizard :=
  {| currentStep := (currentStep w - 1)%Z; error := "";
     profileData := profileData w |}.

(** In range, as a number. *)
Definition within (x : NumField) (lo hi : Q) : Prop :=
  exists q, x = Num q /\ lo <= q /\ q <= hi.

(** *** Values used in examples *)

(** A stand-in for [trim] on names without outer blanks. *)
Definition no_trim (s : string) : string := s.

Definition newcomer : ProfileData :=
  {| name := "Asha"; age := Num 29; gender := "female";
     weight := Num (125 # 2); height := Num 168;
     fitness_goal := ""; activity_level := "beginner";
     medical_conditions := ["Asthma"%string];
     dietary_preferences := [] |}.

End ProfileSetup.

(* ===================================================================== *)
(** * Theorems *)
(* ===================================================================== *)

(** ** The state machine *)

Module RepCounterFacts.
Import RepCounter.
Local Open Scope Q_scope.


Lemma stage_eqb_eq a b : stage_eqb a b = true <-> a = b.
Proof. destruct a, b; simpl; split; congruence. Qed.

Lemma stage_eqb_refl a : stage_eqb a a = true.
Proof. now apply stage_eqb_eq. Qed.

Lemma Qle_bool_false x y : y < x -> Qle_bool x y = false.
Proof.
  intros Hlt. destruct (Qle_bool x y) eqn:E; [|reflexivity].
  apply Qle_bool_iff in E. now apply Qlt_not_le in Hlt.
Qed.

Lemma target_stage_band p theta :
  in_band p theta -> target_stage p theta = None.
Proof.
  intros [Hc He]. unfold target_stage.
  now rewrite (Qle_bool_false _ _ Hc), (Qle_bool_false _ _ He).
Qed.

Lemma feed_band N p st theta :
  in_band p theta ->
  feed N p st theta =
    ({| stage := stage st; rep_count := rep_count st;
        angle_history := push_history N (angle_history st) theta |}, false).
Proof. intros Hb. unfold feed. now rewrite (target_stage_band _ _ Hb). Qed.

(** The history never holds more than [N] readings. *)
Lemma push_history_bounded N h theta :
  (length (push_history N h theta) <= N)%nat.
Proof.
  unfold push_history. rewrite length_drop, length_app. simpl. lia.
Qed.

(** One reading moves the count by nothing or by one, and by one exactly
    when the flag is raised. *)
Lemma feed_count N p st theta :
  rep_count (fst (feed N p st theta)) =
    ((if snd (feed N p st theta) then 1 else 0) + rep_count st)%nat.
Proof.
  unfold feed. destruct (target_stage p theta) as [t|]; [|reflexivity].
  destruct (stage_eqb t (stage st)); [reflexivity|].
  simpl. now destruct (counts_rep _ _ _).
Qed.

(** The flag is raised exactly on a transition in the counting direction:
    for a curl counted on the way up, from EXTENDED with a reading at or
    below the contracted threshold; for a squat counted on the way up,
    from CONTRACTED with a reading at or above the extended threshold. *)
Lemma feed_completes N p st theta :
  contracted_threshold p < extended_threshold p ->
  snd (feed N p st theta) = true <->
  match counting_direction p with
  | ExtendedToContracted =>
      stage st = EXTENDED /\ theta <= contracted_threshold p
  | ContractedToExtended =>
      stage st = CONTRACTED /\ extended_threshold p <= theta
  end.
Proof.
  intros Hlt. unfold feed, target_stage.
  destruct (Qle_bool theta (contracted_threshold p)) eqn:Ec.
  - apply Qle_bool_iff in Ec.
    assert (Hne : ~ extended_threshold p <= theta).
    { intros H. apply (Qlt_not_le _ _ Hlt). now apply Qle_trans with theta. }
    destruct (counting_direction p), (stage st); simpl; split;
      try congruence; try tauto; intros [? ?]; congruence.
  - assert (Hc : ~ theta <= contracted_threshold p).
    { intros H. apply Qle_bool_iff in H. congruence. }
    destruct (Qle_bool (extended_threshold p) theta) eqn:Ee.
    + apply Qle_bool_iff in Ee.
      destruct (counting_direction p), (stage st); simpl; split;
        try congruence; try tauto; intros [? ?]; congruence.
    + assert (He : ~ extended_threshold p <= theta).
      { intros H. apply Qle_bool_iff in H. congruence. }
      destruct (counting_direction p), (stage st); simpl; split;
        try congruence; try tauto; intros [? ?]; congruence.
Qed.

(** Spec 8, the curl scenarios. *)
Example curl_one_rep :
  rep_count (run 5 bicep_curl_left initial [Some 170; Some 90; Some 20]) = 1%nat.
Proof. reflexivity. Qed.

Example curl_two_reps :
  rep_count
    (run 5 bicep_curl_left initial [Some 170; Some 20; Some 170; Some 20])
  = 2%nat.
Proof. reflexivity. Qed.

(** Spec 8, the squat scenario. *)
Example squat_one_rep :
  let st1 := fst (observe 5 squat_both initial (Some 170)) in
  let st2 := fst (observe 5 squat_both st1 (Some 80)) in
  let st3 := fst (observe 5 squat_both st2 (Some 170)) in
  (stage st1, stage st2, stage st3, rep_count st3)
  = (EXTENDED, CONTRACTED, EXTENDED, 1%nat).
Proof. reflexivity. Qed.

(** C6: a reading strictly between the contracted and the extended
    threshold changes neither the stage nor the count, and a sequence of
    such readings produces no stage change and no rep: the stage and the
    count at the end are those at the start, and no step in between
    changed the stage. *)
Theorem hysteresis_band_is_inert N p st (angles : list Q) :
  Forall (in_band p) angles ->
  stage (run N p st (map Some angles)) = stage st
  /\ rep_count (run N p st (map Some angles)) = rep_count st
  /\ stage_changes N p st (map Some angles) = 0%nat
  /\ (forall theta, In theta angles ->
      forall st0, snd (feed N p st0 theta) = false
                  /\ stage (fst (feed N p st0 theta)) = stage st0
                  /\ rep_count (fst (feed N p st0 theta)) = rep_count st0).
Proof.
  intros Hall. revert st.
  induction Hall as [|theta rest Hb _ IH]; intros st.
  - simpl. refine (conj eq_refl (conj eq_refl (conj eq_refl _))).
    intros ? [].
  - simpl. rewrite (feed_band N p st theta Hb). simpl.
    destruct (IH {| stage := stage st; rep_count := rep_count st;
                    angle_history :=
                      push_history N (angle_history st) theta |})
      as (Hs & Hr & Hc & Hin).
    simpl in Hs, Hr. rewrite stage_eqb_refl.
    refine (conj Hs (conj Hr (conj Hc _))).
    intros theta' [<-|Hin'] st0.
    + rewrite (feed_band N p st0 theta Hb). now simpl.
    + now apply Hin.
Qed.

(** The band between 30 and 160 degrees of the left curl. *)
Lemma hysteresis_band_is_inert_witness :
  stage (run 5 bicep_curl_left
           {| stage := EXTENDED; rep_count := 3; angle_history := [170] |}
           (map Some [90; 31; 159; 100])) = EXTENDED
  /\ rep_count (run 5 bicep_curl_left
           {| stage := EXTENDED; rep_count := 3; angle_history := [170] |}
           (map Some [90; 31; 159; 100])) = 3%nat.
Proof.
  assert (Hb : Forall (in_band bicep_curl_left) [90; 31; 159; 100]).
  { repeat constructor; reflexivity. }
  destruct (hysteresis_band_is_inert 5 bicep_curl_left
              {| stage := EXTENDED; rep_count := 3; angle_history := [170] |}
              [90; 31; 159; 100] Hb) as (Hs & Hr & _).
  split; [exact Hs | exact Hr].
Defined.

End RepCounterFacts.

(** ** The rep-counting service *)

Module RepCountingServiceFacts.
Import JS Http RepCountingService.

Section WithBackend.
Context {B Img : Type}.
Context (session_start : string -> string -> B -> Fetch jsval * B).
Context (analyze : string -> Img -> B -> Fetch AnalyzeResult * B).
Context (session_end : jsval -> B -> Fetch jsval * B).

(** Whatever the analysis answers, the service count does not go down. *)
Lemma absorb_monotone result s :
  (repCount s <= repCount (fst (fst (absorb result s))))%Z.
Proof.
  unfold absorb. destruct (success result); simpl; [|lia].
  destruct (repCount s <? reps result)%Z eqn:E; simpl; [|lia].
  apply Z.ltb_lt in E. lia.
Qed.

Lemma processFrame_monotone img s b :
  (repCount s <= repCount (fst (fst (fst (processFrame analyze img s b)))))%Z.
Proof.
  unfold processFrame.
  destruct (negb (isActive s) || negb (truthy_str (currentExercise s)));
    simpl; [lia|].
  destruct (currentExercise s) as [ex|]; simpl; [|lia].
  destruct (analyze ex img b) as [[msg|st|result] b']; simpl; try lia.
  pose proof (absorb_monotone result s) as H.
  destruct (absorb result s) as [[s' r] ev]. exact H.
Qed.

(** A service that is not active answers without calling the server. *)
Lemma processFrame_inactive img s b :
  isActive s = false ->
  processFrame analyze img s b
  = (s, b, ProcessFailed (Some "Session not active"%string), []).
Proof. intros H. unfold processFrame. now rewrite H. Qed.

Lemma service_eta (s : Service) :
  {| isActive := isActive s; currentExercise := currentExercise s;
     repCount := repCount s; sessionId := sessionId s;
     websocket := websocket s; callbacks := callbacks s |} = s.
Proof. now destruct s. Qed.

(** What [absorb] does to the service: only the count may move. *)
Lemma absorb_state result s :
  fst (fst (absorb result s))
  = {| isActive := isActive s; currentExercise := currentExercise s;
       repCount := raise (repCount s) (Ok result);
       sessionId := sessionId s; websocket := websocket s;
       callbacks := callbacks s |}.
Proof.
  unfold absorb, raise. destruct (success result); simpl.
  - destruct (repCount s <? reps result)%Z eqn:E; simpl.
    + apply Z.ltb_lt in E. f_equal. lia.
    + apply Z.ltb_ge in E. rewrite Z.max_l by lia. now rewrite service_eta.
  - now rewrite service_eta.
Qed.

(** One frame of an active service: the reply decides the new count. *)
Lemma processFrame_active img s b ex :
  isActive s = true ->
  currentExercise s = Some ex ->
  ex <> ""%string ->
  fst (fst (fst (processFrame analyze img s b)))
  = {| isActive := isActive s; currentExercise := currentExercise s;
       repCount := raise (repCount s) (fst (analyze ex img b));
       sessionId := sessionId s; websocket := websocket s;
       callbacks := callbacks s |}
  /\ snd (fst (fst (processFrame analyze img s b))) = snd (analyze ex img b).
Proof.
  intros Hact Hex Hne. apply String.eqb_neq in Hne.
  destruct s as [act cur cnt sid ws cbs]. simpl in Hact, Hex. subst act cur.
  unfold processFrame. simpl. rewrite Hne. simpl.
  destruct (analyze ex img b) as [[msg|st|result] b']; simpl;
    try (split; reflexivity).
  pose proof (absorb_state result
                {| isActive := true; currentExercise := Some ex;
                   repCount := cnt; sessionId := sid; websocket := ws;
                   callbacks := cbs |}) as H.
  destruct (absorb result _) as [[s' r] ev]. simpl in *. now split.
Qed.

(** What a successful [endSession] leaves behind. *)
Lemma endSession_ok_inv s b s' b' n data ev :
  endSession session_end s b = (s', b', EndOk n data, ev) ->
  n = repCount s
  /\ s' = {| isActive := false;
             currentExercise := currentExercise s;
             repCount := 0;
             sessionId := JNull;
             websocket := websocket s;
             callbacks := callbacks s |}.
Proof.
  unfold endSession.
  destruct (negb (truthy (sessionId s))); [discriminate|].
  destruct (session_end (sessionId s) b) as [[msg|st|d] b0];
    try discriminate.
  intros H. injection H as <- _ <- _ _. now split.
Qed.

(** C10: when [endSession] succeeds on an open session, the reported
    [finalRepCount] is the count held just before the call, and
    afterwards [isActive] is false, [sessionId] is null and [repCount]
    is 0, while [currentExercise] and the callbacks are as before.
    Such a success is what the call returns whenever the session id is
    set and the server accepts the request. *)
Theorem endSession_success_effect :
  (forall s b s' b' n data ev,
      endSession session_end s b = (s', b', EndOk n data, ev) ->
      n = repCount s
      /\ isActive s' = false
      /\ sessionId s' = JNull
      /\ repCount s' = 0%Z
      /\ currentExercise s' = currentExercise s
      /\ callbacks s' = callbacks s)
  /\ (forall s b b' data,
      truthy (sessionId s) = true ->
      session_end (sessionId s) b = (Ok data, b') ->
      exists s',
        endSession session_end s b = (s', b', EndOk (repCount s) data, [])).
Proof.
  split.
  - intros s b s' b' n data ev H.
    destruct (endSession_ok_inv _ _ _ _ _ _ _ H) as [-> ->]. now simpl.
  - intros s b b' data Hid Hend. unfold endSession.
    rewrite Hid, Hend. simpl. eexists. reflexivity.
Qed.

(** C4, as the code has it: [endSession] on a service without a session
    (never started, or already ended) reports success with the message
    'No active session' and changes nothing; when the server turns the
    request down, [endSession] fails with 'Failed to end session: ...'
    and the service keeps its state; and [processFrame] after a
    successful [endSession] fails with 'Session not active' without
    reaching the server. *)
Theorem endSession_without_session :
  (forall s b,
      truthy (sessionId s) = false ->
      endSession session_end s b
      = (s, b, EndNoSession "No active session"%string, []))
  /\ (forall s b b' st,
      truthy (sessionId s) = true ->
      session_end (sessionId s) b = (NotOk st, b') ->
      endSession session_end s b
      = (s, b', EndFailed ("Failed to end session: " ++ st)%string,
         report_error s ("Failed to end session: " ++ st)%string))
  /\ (forall s b s' b' n data ev img b2,
      endSession session_end s b = (s', b', EndOk n data, ev) ->
      processFrame analyze img s' b2
      = (s', b2, ProcessFailed (Some "Session not active"%string), [])).
Proof.
  split; [|split].
  - intros s b H. unfold endSession. now rewrite H.
  - intros s b b' st Hid Hend. unfold endSession. now rewrite Hid, Hend.
  - intros s b s' b' n data ev img b2 H.
    apply processFrame_inactive.
    now destruct (endSession_ok_inv _ _ _ _ _ _ _ H) as [_ ->].
Qed.

(** C8, as the code has it: [startSession] has no check for a session
    that is already open.  It fails when no exercise has been selected,
    and a failed call leaves the service as it was; when the server
    accepts the request it succeeds whatever [isActive] and [sessionId]
    were, stores the session id that came back, sets [isActive], and
    keeps every other field, the current [repCount] included. *)
Theorem startSession_has_no_active_check :
  (forall token s b ex sid b',
      currentExercise s = Some ex ->
      ex <> ""%string ->
      session_start ex token b = (Ok sid, b') ->
      startSession session_start token s b
      = ({| isActive := true;
            currentExercise := currentExercise s;
            repCount := repCount s;
            sessionId := sid;
            websocket := websocket s;
            callbacks := callbacks s |}, b', StartOk sid, []))
  /\ (forall token s b,
      truthy_str (currentExercise s) = false ->
      startSession session_start token s b
      = (s, b,
         StartFailed "No exercise selected. Call initialize() first."%string,
         report_error s
           "No exercise selected. Call initialize() first."%string))
  /\ (forall token s b s' b' e ev,
      startSession session_start token s b = (s', b', StartFailed e, ev) ->
      s' = s).
Proof.
  split; [|split].
  - intros token s b ex sid b' Hex Hne Hstart. unfold startSession.
    rewrite Hex. apply String.eqb_neq in Hne. now rewrite Hne, Hstart.
  - intros token s b H. unfold startSession.
    destruct (currentExercise s) as [ex|]; [|reflexivity].
    simpl in H. now destruct (String.eqb ex "").
  - intros token s b s' b' e ev. unfold startSession.
    destruct (currentExercise s) as [ex|].
    + destruct (String.eqb ex ""); [now intros [= <- _ _ _]|].
      destruct (session_start ex token b) as [[msg|st|sid] b0];
        now intros [= <- _ _ _].
    + now intros [= <- _ _ _].
Qed.

End WithBackend.


Lemma endSession_success_effect_witness :
  exists s',
    endSession accepting_end busy tt = (s', tt, EndOk 4 (JStr "ended"), []).
Proof.
  apply (proj2 (endSession_success_effect accepting_end) busy tt tt
           (JStr "ended")); reflexivity.
Defined.

(** Ending a session on a service that never had one reports success,
    even in front of a server that would reject every session id. *)
Lemma endSession_never_started_reports_success :
  end_success
    (snd (fst (endSession rejecting_end RepCountingService.new tt))) = true.
Proof. reflexivity. Qed.

Lemma endSession_without_session_witness :
  endSession rejecting_end RepCountingService.new tt
  = (RepCountingService.new, tt, EndNoSession "No active session", [])
  /\ endSession rejecting_end busy tt
     = (busy, tt, EndFailed "Failed to end session: Not Found",
        [ErrorReported 2 "Failed to end session: Not Found"]).
Proof.
  split.
  - apply (proj1 (endSession_without_session
                    (fun (_ : string) (_ : unit) (b : unit) =>
                       (@Rejected AnalyzeResult "offline", b))
                    rejecting_end)).
    reflexivity.
  - apply (proj1 (proj2 (endSession_without_session
                    (fun (_ : string) (_ : unit) (b : unit) =>
                       (@Rejected AnalyzeResult "offline", b))
                    rejecting_end)) busy tt tt "Not Found"%string);
      reflexivity.
Defined.

(** A second [startSession] while a session is open succeeds, and the id
    of the open session is overwritten. *)
Lemma startSession_twice_overwrites :
  let '(s', _, r, _) := startSession accepting_start "default_user" busy tt in
  start_success r = true
  /\ sessionId busy = JStr "session-1"
  /\ sessionId s' = JStr "session-of-default_user"
  /\ repCount s' = 4%Z.
Proof. now vm_compute. Qed.

Lemma startSession_has_no_active_check_witness :
  startSession accepting_start "default_user" busy tt
  = ({| isActive := true;
        currentExercise := currentExercise busy;
        repCount := repCount busy;
        sessionId := JStr "session-of-default_user";
        websocket := websocket busy;
        callbacks := callbacks busy |}, tt,
     StartOk (JStr "session-of-default_user"), []).
Proof.
  apply (proj1 (startSession_has_no_active_check accepting_start)
           "default_user"%string busy tt "squat"%string
           (JStr "session-of-default_user") tt).
  - reflexivity.
  - discriminate.
  - reflexivity.
Defined.

End RepCountingServiceFacts.

(** ** The analyzer and the tracker *)

Module AnalyzerFacts.
Import JS Http RepCounter ExerciseAnalyzer ExerciseTracker World.
Local Open Scope Q_scope.

Lemma tracker_eta (t : Tracker) :
  {| catalog := catalog t; analyzers := analyzers t |} = t.
Proof. now destruct t. Qed.

Lemma usable_none P (lms : gmap string Landmark) name :
  unusable P lms name -> usable P lms name = None.
Proof.
  unfold usable. intros [-> | (l & -> & Hlow)]; [reflexivity|].
  now rewrite (RepCounterFacts.Qle_bool_false _ _ Hlow).
Qed.

Lemma resolve_none P p (lms : gmap string Landmark) :
  lacks_landmark P p lms -> resolve P p lms = None.
Proof.
  unfold lacks_landmark, resolve.
  destruct (landmark_triplet p) as [[a b] c]. simpl.
  intros [H | [H | H]]; rewrite (usable_none _ _ _ H);
    repeat match goal with |- context [usable ?P ?l ?n] =>
             destruct (usable P l n) end; reflexivity.
Qed.

Lemma measure_none P p (lms : gmap string Landmark) :
  lacks_landmark P p lms -> measure P p lms = None.
Proof. intros H. unfold measure. now rewrite (resolve_none _ _ _ H). Qed.

(** A frame without a reading goes through the tracker untouched. *)
Lemma tracker_analyze_no_reading N name t p a :
  catalog t !! name = Some p ->
  analyzers t !! name = Some a ->
  tracker_analyze N name None t
  = (Ok {| Http.success := true;
           Http.reps := Z.of_nat (rep_count (counter a));
           Http.stage := stage_label (RepCounter.stage (counter a));
           Http.feedback := None;
           Http.angle := None;
           Http.rep_completed := false;
           Http.error := None |}, t).
Proof.
  intros Hc Ha. unfold tracker_analyze, analyze_frame.
  rewrite Hc, Ha. simpl. rewrite (insert_id _ _ _ Ha).
  now rewrite tracker_eta.
Qed.

(** C3: a frame on which a required landmark is missing or below the
    minimum confidence is answered with the stored stage and count, no
    angle and no completed rep; the analyzer (stage, count, history,
    calories) is left as it was; and the tracker answers it as an ordinary
    success, not as an error, itself unchanged. *)
Theorem missing_landmarks_hold_state P a (lms : gmap string Landmark) :
  lacks_landmark P (profile a) lms ->
  analyze P a lms
  = (a, {| fr_angle := None;
           fr_stage := RepCounter.stage (counter a);
           fr_rep_count := rep_count (counter a);
           fr_rep_completed := false;
           fr_calories_delta := 0 |})
  /\ forall name t p,
      catalog t !! name = Some p ->
      analyzers t !! name = Some a ->
      tracker_analyze (history_capacity P) name (measure P (profile a) lms) t
      = (Ok {| Http.success := true;
               Http.reps := Z.of_nat (rep_count (counter a));
               Http.stage := stage_label (RepCounter.stage (counter a));
               Http.feedback := None;
               Http.angle := None;
               Http.rep_completed := false;
               Http.error := None |}, t).
Proof.
  intros Hmiss. split.
  - unfold analyze. now rewrite (measure_none _ _ _ Hmiss).
  - intros name t p Hc Ha. rewrite (measure_none _ _ _ Hmiss).
    now apply tracker_analyze_no_reading with p.
Qed.

Lemma missing_landmarks_hold_state_witness :
  analyze demo_params mid_curl wrist_hidden
  = (mid_curl, {| fr_angle := None;
                  fr_stage := EXTENDED;
                  fr_rep_count := 3;
                  fr_rep_completed := false;
                  fr_calories_delta := 0 |}).
Proof.
  apply (proj1 (missing_landmarks_hold_state demo_params mid_curl wrist_hidden
                  (or_intror (or_intror (or_intror
                     (ex_intro _ (seen (1 # 2) (3 # 4) (1 # 10))
                        (conj eq_refl eq_refl))))))).
Defined.

(** Frames without a reading can be dropped from any sequence. *)
Lemma analyze_all_skips P a (lost : gmap string Landmark) frames :
  lacks_landmark P (profile a) lost ->
  analyze_all P a (lost :: frames) = analyze_all P a frames.
Proof.
  intros H. simpl. unfold analyze. now rewrite (measure_none _ _ _ H).
Qed.

End AnalyzerFacts.

(** ** Reset *)

Module ResetFacts.
Import JS.

(** C5: whatever the state before, a reset leaves the counter at stage
    UNKNOWN with no reps and an empty history; the analyzer also drops its
    calories and the tracker resets the analyzer it is asked for.  On the
    client side [resetCount] puts the service count at 0, and
    [resetExercise], once the server has accepted the reset, puts the
    displayed data at 0 reps, stage 'ready', no angle and 0 calories. *)
Theorem reset_restores_initial_state :
  (forall st,
      RepCounter.stage (RepCounter.reset st) = RepCounter.UNKNOWN
      /\ RepCounter.rep_count (RepCounter.reset st) = 0%nat
      /\ RepCounter.angle_history (RepCounter.reset st) = [])
  /\ (forall a,
      ExerciseAnalyzer.counter (ExerciseAnalyzer.reset a)
      = {| RepCounter.stage := RepCounter.UNKNOWN;
           RepCounter.rep_count := 0;
           RepCounter.angle_history := [] |}
      /\ ExerciseAnalyzer.calorie_total (ExerciseAnalyzer.reset a) = 0%Q)
  /\ (forall name t a,
      ExerciseTracker.analyzers t !! name = Some a ->
      exists t',
        ExerciseTracker.reset_exercise name t = inr t'
        /\ ExerciseTracker.analyzers t' !! name
           = Some (ExerciseAnalyzer.reset a)
        /\ forall other, other <> name ->
             ExerciseTracker.analyzers t' !! other
             = ExerciseTracker.analyzers t !! other)
  /\ (forall s,
      RepCountingService.repCount (RepCountingService.resetCount s) = 0%Z)
  /\ (forall post c d,
      WorkoutContext.selectedExercise c <> ""%string ->
      post (WorkoutContext.selectedExercise c) = WorkoutService.Resolved d ->
      WorkoutContext.resetExercise post c
      = (WorkoutContext.with_exerciseData
           {| WorkoutContext.reps := JNum 0;
              WorkoutContext.stage := JStr "ready";
              WorkoutContext.angle := JNull;
              WorkoutContext.calories := JNum 0 |} c,
         WorkoutService.Success tt)).
Proof.
  split; [|split; [|split; [|split]]].
  - intros st. now cbv.
  - intros a. now cbv.
  - intros name t a Ha. unfold ExerciseTracker.reset_exercise. rewrite Ha.
    eexists. split; [reflexivity|]. simpl. split.
    + apply lookup_insert_eq.
    + intros other Hne. now apply lookup_insert_ne.
  - intros s. reflexivity.
  - intros post c d Hsel Hpost. unfold WorkoutContext.resetExercise.
    apply String.eqb_neq in Hsel. rewrite Hsel.
    unfold WorkoutService.resetExercise. now rewrite Hpost.
Qed.

Lemma reset_restores_initial_state_witness :
  let c := {| WorkoutContext.currentSession := Some (JStr "session-1");
              WorkoutContext.exerciseData :=
                {| WorkoutContext.reps := JNum 7;
                   WorkoutContext.stage := JStr "up";
                   WorkoutContext.angle := JNum 25;
                   WorkoutContext.calories := JNum 3 |};
              WorkoutContext.isWorkoutActive := true;
              WorkoutContext.selectedExercise := "squat" |} in
  WorkoutContext.exerciseData
    (fst (WorkoutContext.resetExercise
            (fun _ => WorkoutService.Resolved (JStr "reset")) c))
  = WorkoutContext.initialExerciseData.
Proof.
  intros c.
  rewrite (proj2 (proj2 (proj2 (proj2 reset_restores_initial_state)))
             (fun _ => WorkoutService.Resolved (JStr "reset")) c (JStr "reset"));
    [reflexivity | discriminate | reflexivity].
Defined.

End ResetFacts.

(** ** Sessions in front of the tracker *)

Module CountFacts.
Import JS Http RepCountingService.
Local Open Scope Z_scope.

(** The counter of the specification adds at most one rep per reading. *)
Lemma counts_climbing N p angles : forall st,
  climbing (Z.of_nat (RepCounter.rep_count st))
    (map Z.of_nat (RepCounter.counts N p st angles)).
Proof.
  induction angles as [|theta rest IH]; intros st; simpl; [exact I|].
  split; [|apply IH].
  rewrite RepCounterFacts.feed_count. lia.
Qed.

Lemma counts_take N p k : forall angles st,
  RepCounter.counts N p st (take k angles)
  = take k (RepCounter.counts N p st angles).
Proof.
  induction k as [|k IH]; intros [|theta rest] st; simpl; try reflexivity.
  now rewrite IH.
Qed.

Lemma last_cons {A : Type} (l : list A) : forall x d,
  List.last (x :: l) d = List.last l x.
Proof.
  induction l as [|y l IH]; intros x d; [reflexivity|].
  change (List.last (x :: y :: l) d) with (List.last (y :: l) d).
  now rewrite !IH.
Qed.

(** The last of the counts is the count of the final state. *)
Lemma counts_last N p angles : forall st,
  List.last (map Z.of_nat (RepCounter.counts N p st angles))
    (Z.of_nat (RepCounter.rep_count st))
  = Z.of_nat (RepCounter.rep_count
                (RepCounter.run N p st (map Some angles))).
Proof.
  induction angles as [|theta rest IH]; intros st; [reflexivity|].
  simpl RepCounter.counts. simpl map. rewrite last_cons.
  now rewrite IH.
Qed.

(** A transition counts exactly when it goes from the far end to the
    near end. *)
Lemma counts_rep_ends d a b :
  RepCounter.counts_rep d a b
  = RepCounter.stage_eqb a (RepCounter.far_end d)
    && RepCounter.stage_eqb b (RepCounter.near_end d).
Proof. now destruct d, a, b. Qed.

Lemma full_cycles_cons d a b l :
  RepCounter.full_cycles d (a :: b :: l)
  = ((if RepCounter.counts_rep d a b then 1 else 0)
     + RepCounter.full_cycles d (b :: l))%nat.
Proof.
  rewrite counts_rep_ends. unfold RepCounter.full_cycles. simpl.
  now destruct (RepCounter.stage_eqb a (RepCounter.far_end d)
                && RepCounter.stage_eqb b (RepCounter.near_end d)).
Qed.

Lemma counts_rep_same d a : RepCounter.counts_rep d a a = false.
Proof. now destruct d, a. Qed.

(** The counter counts the full cycles of the readings it is fed: the
    count after a sequence is the count before plus the number of times a
    threshold at the far end is directly followed by the threshold at the
    near end, the stage held at the start included. *)
Lemma run_full_cycles N p angles : forall st,
  RepCounter.rep_count (RepCounter.run N p st (map Some angles))
  = (RepCounter.rep_count st
     + RepCounter.full_cycles (RepCounter.counting_direction p)
         (RepCounter.stage st :: RepCounter.extremes p angles))%nat.
Proof.
  induction angles as [|theta rest IH]; intros st.
  { unfold RepCounter.full_cycles. simpl. lia. }
  simpl. rewrite IH. unfold RepCounter.extremes. simpl.
  unfold RepCounter.feed.
  destruct (RepCounter.target_stage p theta) as [t|]; simpl; [|reflexivity].
  rewrite full_cycles_cons.
  destruct (RepCounter.stage_eqb t (RepCounter.stage st)) eqn:E; simpl.
  - apply RepCounterFacts.stage_eqb_eq in E. subst t.
    rewrite counts_rep_same. lia.
  - destruct (RepCounter.counts_rep (RepCounter.counting_direction p)
                (RepCounter.stage st) t); lia.
Qed.

(** One more stage adds at most one full cycle, and takes none away. *)
Lemma full_cycles_snoc d stages t :
  (RepCounter.full_cycles d stages
   <= RepCounter.full_cycles d (stages ++ [t])
   <= S (RepCounter.full_cycles d stages))%nat.
Proof.
  induction stages as [|a [|b l] IH].
  - unfold RepCounter.full_cycles. simpl. lia.
  - unfold RepCounter.full_cycles. simpl.
    destruct (RepCounter.stage_eqb a (RepCounter.far_end d)
              && RepCounter.stage_eqb t (RepCounter.near_end d)); simpl; lia.
  - change ((a :: b :: l) ++ [t]) with (a :: b :: (l ++ [t])).
    rewrite !full_cycles_cons. simpl in IH. lia.
Qed.

Section WithServer.
Context {B Img : Type}.
Context (analyze : string -> Img -> B -> Fetch AnalyzeResult * B).

Lemma replies_take ex k : forall frames b,
  replies analyze ex (take k frames) b
  = take k (replies analyze ex frames b).
Proof.
  induction k as [|k IH]; intros [|f rest] b; simpl; try reflexivity.
  destruct (analyze ex f b) as [reply b']. simpl. now rewrite IH.
Qed.

Lemma replies_app ex l1 : forall l2 b,
  replies analyze ex (l1 ++ l2) b
  = replies analyze ex l1 b
    ++ replies analyze ex l2 (served analyze ex l1 b).
Proof.
  induction l1 as [|f rest IH]; intros l2 b; simpl; [reflexivity|].
  destruct (analyze ex f b) as [reply b']. simpl. now rewrite IH.
Qed.

(** A run of frames of an active service: the count at the end and the
    state the server is left in. *)
Lemma processFrames_served ex frames : forall s b,
  isActive s = true ->
  currentExercise s = Some ex ->
  ex <> ""%string ->
  repCount (fst (fst (processFrames analyze frames s b)))
  = fold_left raise (replies analyze ex frames b) (repCount s)
  /\ snd (fst (processFrames analyze frames s b))
     = served analyze ex frames b.
Proof.
  induction frames as [|f rest IH]; intros s b Hact Hex Hne; [now split|].
  destruct (RepCountingServiceFacts.processFrame_active analyze f s b ex
              Hact Hex Hne) as [Hs Hb].
  simpl.
  destruct (processFrame analyze f s b) as [[[s1 b1] r] ev].
  simpl in Hs, Hb.
  destruct (analyze ex f b) as [reply b']. simpl in Hs, Hb. subst b1.
  specialize (IH s1 b').
  destruct (processFrames analyze rest s1 b') as [[s2 b2] rs]. simpl in *.
  subst s1. simpl in IH. now apply IH.
Qed.

(** One frame that the server analyzes with success: the service takes
    the larger of its count and the count of the reply, and reports it. *)
Lemma processFrame_success img s b ex result b' :
  isActive s = true ->
  currentExercise s = Some ex ->
  ex <> ""%string ->
  analyze ex img b = (Ok result, b') ->
  success result = true ->
  exists rep ev,
    processFrame analyze img s b
    = ({| isActive := isActive s; currentExercise := currentExercise s;
          repCount := Z.max (repCount s) (reps result);
          sessionId := sessionId s; websocket := websocket s;
          callbacks := callbacks s |}, b', ProcessOk rep, ev)
    /\ rp_repCount rep = Z.max (repCount s) (reps result).
Proof.
  intros Hact Hex Hne Hreply Hok. apply String.eqb_neq in Hne.
  destruct s as [act cur cnt sid ws cbs]. simpl in Hact, Hex. subst act cur.
  unfold processFrame. simpl. rewrite Hne. simpl. rewrite Hreply.
  unfold absorb. rewrite Hok. simpl.
  destruct (cnt <? reps result) eqn:E; simpl.
  - apply Z.ltb_lt in E. rewrite Z.max_r by lia.
    do 2 eexists. split; reflexivity.
  - apply Z.ltb_ge in E. rewrite Z.max_l by lia.
    do 2 eexists. split; reflexivity.
Qed.

(** A service in step with the server: when the replies carry counts that
    start at or above the count held and never go down, the count handed
    back with every frame is the count of its reply. *)
Lemma in_step ex frames : forall counts s b,
  isActive s = true ->
  currentExercise s = Some ex ->
  ex <> ""%string ->
  reports_counts (replies analyze ex frames b) counts ->
  climbing (repCount s) counts ->
  map observed (snd (processFrames analyze frames s b)) = map Some counts
  /\ repCount (fst (fst (processFrames analyze frames s b)))
     = List.last counts (repCount s).
Proof.
  induction frames as [|f rest IH]; intros counts s b Hact Hex Hne Hrep Hup.
  { simpl in Hrep. inversion Hrep. now split. }
  simpl in Hrep. destruct (analyze ex f b) as [reply b'] eqn:Hreply.
  inversion Hrep as [|? c ? cs (result & -> & Hok & Hc) Hrest]; subst.
  destruct Hup as [Hle Hup].
  destruct (processFrame_success f s b ex result b' Hact Hex Hne Hreply Hok)
    as (rep & ev & Hstep & Hobs).
  rewrite Z.max_r in Hstep, Hobs by exact Hle.
  simpl. rewrite Hstep.
  specialize (IH cs
    {| isActive := isActive s; currentExercise := currentExercise s;
       repCount := reps result; sessionId := sessionId s;
       websocket := websocket s; callbacks := callbacks s |}
    b' Hact Hex Hne Hrest Hup).
  destruct (processFrames analyze rest _ b') as [[s2 b2] rs].
  simpl in *. destruct IH as [IH1 IH2]. split.
  - now rewrite Hobs, IH1.
  - rewrite IH2. destruct cs as [|c' cs]; [reflexivity|].
    now rewrite !last_cons.
Qed.

(** C2, as the code has it.  The count that the service holds never goes
    down when a frame is processed, whatever the server answers.  The
    service does not count cycles itself: on a successful reply it takes
    the larger of its count and the count in the reply, and hands that
    back.  So a service in step with the server (the replies carry counts
    that start at or above the count held and never go down) hands back,
    with every frame, exactly the count of the reply; behind a counter
    that works as the specification says and starts at the count held,
    the count after each frame is the count at the start plus the full
    cycles completed so far, one per cycle and at most one per frame.
    A service that holds less than the count of a reply catches up in
    that one frame, whatever the difference. *)
Theorem observed_count_follows_server :
  (forall img s b,
      repCount s <= repCount (fst (fst (fst (processFrame analyze img s b)))))
  /\ (forall img s b ex result b',
      isActive s = true ->
      currentExercise s = Some ex ->
      ex <> ""%string ->
      analyze ex img b = (Ok result, b') ->
      success result = true ->
      exists rep ev,
        processFrame analyze img s b
        = ({| isActive := isActive s; currentExercise := currentExercise s;
              repCount := Z.max (repCount s) (reps result);
              sessionId := sessionId s; websocket := websocket s;
              callbacks := callbacks s |}, b', ProcessOk rep, ev)
        /\ rp_repCount rep = Z.max (repCount s) (reps result))
  /\ (forall ex frames counts s b,
      isActive s = true ->
      currentExercise s = Some ex ->
      ex <> ""%string ->
      reports_counts (replies analyze ex frames b) counts ->
      climbing (repCount s) counts ->
      map observed (snd (processFrames analyze frames s b)) = map Some counts
      /\ repCount (fst (fst (processFrames analyze frames s b)))
         = List.last counts (repCount s))
  /\ (forall N p st ex frames angles s b,
      isActive s = true ->
      currentExercise s = Some ex ->
      ex <> ""%string ->
      reports_counts (replies analyze ex frames b)
        (map Z.of_nat (RepCounter.counts N p st angles)) ->
      repCount s = Z.of_nat (RepCounter.rep_count st) ->
      forall k,
        repCount (fst (fst (processFrames analyze (take k frames) s b)))
        = repCount s
          + Z.of_nat
              (RepCounter.full_cycles (RepCounter.counting_direction p)
                 (RepCounter.stage st
                  :: RepCounter.extremes p (take k angles))))
  /\ (forall d stages t,
      (RepCounter.full_cycles d stages
       <= RepCounter.full_cycles d (stages ++ [t])
       <= S (RepCounter.full_cycles d stages))%nat).
Proof.
  refine (conj _ (conj _ (conj _ (conj _ _)))).
  - intros img s b. apply RepCountingServiceFacts.processFrame_monotone.
  - intros img s b ex result b'. apply processFrame_success.
  - intros ex frames counts s b. apply in_step.
  - intros N p st ex frames angles s b Hact Hex Hne Hrep Hsync k.
    assert (Hk : reports_counts (replies analyze ex (take k frames) b)
                   (map Z.of_nat (RepCounter.counts N p st (take k angles)))).
    { rewrite replies_take, counts_take, <- firstn_map.
      now apply Forall2_take. }
    destruct (in_step ex (take k frames) _ s b Hact Hex Hne Hk) as [_ Hlast].
    { rewrite Hsync. apply counts_climbing. }
    rewrite Hlast, Hsync, counts_last, run_full_cycles. lia.
  - intros d stages t. apply full_cycles_snoc.
Qed.

End WithServer.

Lemma observed_count_follows_server_witness :
  map observed
    (snd (processFrames replay_analysis
            [Ok (counted 5 "down"); Ok (counted 5 "down"); Ok (counted 6 "up")]
            busy tt))
  = [Some 5; Some 5; Some 6]
  /\ repCount
       (fst (fst (processFrames replay_analysis
                    (take 2 [Ok (counted 0 "down"); Ok (counted 1 "up")])
                    (World.tracking "bicep_curl_left" "session-a") tt)))
     = 0 + Z.of_nat
             (RepCounter.full_cycles RepCounter.ExtendedToContracted
                (RepCounter.UNKNOWN
                 :: RepCounter.extremes RepCounter.bicep_curl_left
                      (take 2 [170%Q; 20%Q]))).
Proof.
  split.
  - apply (proj1 (proj1 (proj2 (proj2
             (observed_count_follows_server replay_analysis)))
             "squat"%string
             [Ok (counted 5 "down"); Ok (counted 5 "down");
              Ok (counted 6 "up")]
             [5; 5; 6] busy tt eq_refl eq_refl ltac:(discriminate)
             ltac:(repeat constructor; eexists; repeat split)
             ltac:(simpl; lia))).
  - apply (proj1 (proj2 (proj2 (proj2
             (observed_count_follows_server replay_analysis))))
             5%nat RepCounter.bicep_curl_left RepCounter.initial
             "bicep_curl_left"%string
             [Ok (counted 0 "down"); Ok (counted 1 "up")]
             [170%Q; 20%Q]
             (World.tracking "bicep_curl_left" "session-a") tt
             eq_refl eq_refl ltac:(discriminate)
             ltac:(repeat constructor; eexists; repeat split)
             eq_refl 2%nat).
Defined.

(** A service that holds four reps receives a successful reply whose
    count is 9 and which says that no rep was completed on the frame: the
    count handed back with that one frame is 9, five more than before. *)
Lemma count_jumps_to_the_reply :
  let '(s1, _, r, _) :=
    processFrame replay_analysis (Ok (counted 9 "down")) busy tt in
  repCount busy = 4
  /\ rep_completed (counted 9 "down") = false
  /\ observed r = Some 9
  /\ repCount s1 = 9.
Proof. now vm_compute. Qed.

End CountFacts.

(** ** Two sessions and one server *)

Module WorldFacts.
Import JS Http RepCountingService WorkoutService World.
Local Open Scope Z_scope.

(** [raise] and a lower bound commute. *)
Lemma fold_raise_max replies : forall a c,
  fold_left raise replies (Z.max a c) = Z.max a (fold_left raise replies c).
Proof.
  induction replies as [|reply rest IH]; intros a c; [reflexivity|].
  simpl.
  assert (H : raise (Z.max a c) reply = Z.max a (raise c reply)).
  { unfold raise. destruct reply as [msg|st|result]; try reflexivity.
    destruct (success result); [lia | reflexivity]. }
  now rewrite H, IH.
Qed.

Lemma heard_app who l1 l2 : heard who (l1 ++ l2) = heard who l1 ++ heard who l2.
Proof. unfold heard. now rewrite List.filter_app, map_app. Qed.

Section WithServer.
Context {B Img : Type}.
Context (analyze : string -> Img -> B -> Fetch AnalyzeResult * B).

(** The server answers a schedule as it answers the frames of the
    schedule: it is not told who sent them. *)
Lemma answers_replies ex sched : forall b,
  map snd (answers analyze ex sched b)
  = replies analyze ex (map snd sched) b.
Proof.
  induction sched as [|[who img] rest IH]; intros b; simpl; [reflexivity|].
  destruct (analyze ex img b) as [reply b']. simpl. now rewrite IH.
Qed.

Lemma answers_app ex l1 : forall l2 b,
  answers analyze ex (l1 ++ l2) b
  = answers analyze ex l1 b
    ++ answers analyze ex l2 (served analyze ex (map snd l1) b).
Proof.
  induction l1 as [|[who img] rest IH]; intros l2 b; simpl; [reflexivity|].
  destruct (analyze ex img b) as [reply b']. simpl. now rewrite IH.
Qed.

Lemma answers_sent_by ex who frames : forall b,
  answers analyze ex (sent_by who frames) b
  = map (pair who) (replies analyze ex frames b).
Proof.
  induction frames as [|f rest IH]; intros b; simpl; [reflexivity|].
  destruct (analyze ex f b) as [reply b']. simpl. now rewrite IH.
Qed.

Lemma heard_own who (l : list (Fetch AnalyzeResult)) :
  heard who (map (pair who) l) = l.
Proof.
  unfold heard. induction l as [|x l IH]; [reflexivity|].
  simpl. destruct who; simpl; now rewrite IH.
Qed.

Lemma heard_other who (l : list (Fetch AnalyzeResult)) :
  heard who (map (pair (other who)) l) = [].
Proof.
  unfold heard. induction l as [|x l IH]; [reflexivity|].
  simpl. destruct who; simpl; exact IH.
Qed.

(** A frame of one session leaves the service of the other alone. *)
Lemma step_other who img w b :
  service_of (other who) (fst (step analyze who img w b))
  = service_of (other who) w.
Proof.
  unfold step. destruct who; simpl;
    match goal with |- context [processFrame ?f ?x ?y ?z] =>
      destruct (processFrame f x y z) as [[[? ?] ?] ?] end; reflexivity.
Qed.

(** One frame of either session: the server does what it does for the
    exercise and the image, and the sender takes the larger of its count
    and the count of a successful reply. *)
Lemma step_on ex who img w b :
  ex <> ""%string ->
  both_on ex w ->
  snd (step analyze who img w b) = snd (analyze ex img b)
  /\ repCount (service_of who (fst (step analyze who img w b)))
     = raise (repCount (service_of who w)) (fst (analyze ex img b))
  /\ both_on ex (fst (step analyze who img w b)).
Proof.
  intros Hne Hboth. destruct (Hboth who) as [Hact Hex].
  destruct (RepCountingServiceFacts.processFrame_active analyze img
              (service_of who w) b ex Hact Hex Hne) as [Hs Hb].
  assert (Hstep : service_of who (fst (step analyze who img w b))
                  = fst (fst (fst (processFrame analyze img
                                     (service_of who w) b)))
                  /\ snd (step analyze who img w b)
                     = snd (fst (fst (processFrame analyze img
                                        (service_of who w) b)))).
  { unfold step. destruct who; simpl;
      match goal with |- context [processFrame ?f ?x ?y ?z] =>
        destruct (processFrame f x y z) as [[[? ?] ?] ?] end; now split. }
  destruct Hstep as [Hwho Hsrv].
  split; [now rewrite Hsrv, Hb|]. split; [now rewrite Hwho, Hs|].
  intros who'. destruct (Hboth who') as [Hact' Hex'].
  destruct who, who'; simpl in *;
    first [ rewrite Hwho, Hs; now split
          | pose proof (step_other SessionA img w b) as Ho; simpl in Ho;
            rewrite Ho; now split
          | pose proof (step_other SessionB img w b) as Ho; simpl in Ho;
            rewrite Ho; now split ].
Qed.

(** A whole schedule: the server is left in the state that the frames
    alone determine, and each session holds the running maximum of its
    own count and the successful replies to its own frames. *)
Lemma run_on ex sched : forall w b,
  ex <> ""%string ->
  both_on ex w ->
  snd (run analyze sched w b) = served analyze ex (map snd sched) b
  /\ forall who,
       repCount (service_of who (fst (run analyze sched w b)))
       = fold_left raise (heard who (answers analyze ex sched b))
           (repCount (service_of who w)).
Proof.
  induction sched as [|[who img] rest IH]; intros w b Hne Hboth.
  { now split. }
  destruct (step_on ex who img w b Hne Hboth) as (Hsrv & Hcount & Hboth1).
  pose proof (step_other who img w b) as Hother.
  simpl. destruct (step analyze who img w b) as [w1 b1]. simpl in *.
  destruct (analyze ex img b) as [reply b'] eqn:Hreply. simpl in *.
  subst b1. destruct (IH w1 b' Hne Hboth1) as [IHsrv IHcount].
  split; [exact IHsrv|]. intros who'. rewrite IHcount.
  unfold heard. simpl.
  destruct who, who'; simpl in *; congruence.
Qed.

(** Session A sends its frames, then session B sends its own: B's count
    is what the replies to B's frames give, and the server answers them
    from the state that A's frames left it in. *)
Lemma run_A_then_B ex framesA framesB w b :
  ex <> ""%string ->
  both_on ex w ->
  repCount
    (serviceB
       (fst (run analyze (sent_by SessionA framesA ++ sent_by SessionB framesB)
               w b)))
  = fold_left raise
      (replies analyze ex framesB (served analyze ex framesA b))
      (repCount (serviceB w)).
Proof.
  intros Hne Hboth.
  destruct (run_on ex (sent_by SessionA framesA ++ sent_by SessionB framesB)
              w b Hne Hboth) as [_ Hcount].
  pose proof (Hcount SessionB) as H. simpl in H. rewrite H. clear H.
  rewrite answers_app, heard_app, !answers_sent_by.
  rewrite (heard_other SessionB), (heard_own SessionB). simpl.
  unfold sent_by. now rewrite map_map, map_id.
Qed.

(** C1, as the code has it.  The analysis request of the rep-counting
    service carries the exercise name and the image and nothing of the
    session, so the server answers the frames of two sessions on one
    exercise as one stream: its state after a schedule and its replies
    depend on the frames in the order of arrival, not on who sent them.
    Each session holds the running maximum of its own count and the
    successful replies to its own frames; when B sends its frames after
    A, these replies come from the state that A's frames left the server
    in.  What stays apart is the client side: a frame of one session
    never changes the service object of the other.  The workout service
    adds the login token of the browser to the request when one is
    stored, and nothing else of the session: two browsers with the same
    token, or with none, make the same requests, and a stored token
    reaches the server as it is. *)
Theorem sessions_share_one_counter ex sched w b :
  ex <> ""%string ->
  both_on ex w ->
  snd (run analyze sched w b) = served analyze ex (map snd sched) b
  /\ map snd (answers analyze ex sched b)
     = replies analyze ex (map snd sched) b
  /\ (forall who,
        repCount (service_of who (fst (run analyze sched w b)))
        = fold_left raise (heard who (answers analyze ex sched b))
            (repCount (service_of who w)))
  /\ (forall framesA framesB,
        sched = sent_by SessionA framesA ++ sent_by SessionB framesB ->
        repCount (serviceB (fst (run analyze sched w b)))
        = fold_left raise
            (replies analyze ex framesB (served analyze ex framesA b))
            (repCount (serviceB w)))
  /\ (forall who img w0 b0,
        service_of (other who) (fst (step analyze who img w0 b0))
        = service_of (other who) w0)
  /\ (forall (S Blob : Type)
             (endpoint : option string -> string -> Blob -> S
                         -> Axios FrameData * S)
             tokenA tokenB exercise blob st,
        session_token_param tokenA = session_token_param tokenB ->
        analyzeFrame_on endpoint tokenA exercise blob st
        = analyzeFrame_on endpoint tokenB exercise blob st)
  /\ (forall (S Blob : Type)
             (endpoint : option string -> string -> Blob -> S
                         -> Axios FrameData * S)
             token exercise blob st,
        token <> ""%string ->
        snd (analyzeFrame_on endpoint (Some token) exercise blob st)
        = snd (endpoint (Some token) exercise blob st)
        /\ forall data,
             fst (endpoint (Some token) exercise blob st) = Resolved data ->
             fst (analyzeFrame_on endpoint (Some token) exercise blob st)
             = Success data).
Proof.
  intros Hne Hboth.
  destruct (run_on ex sched w b Hne Hboth) as [Hsrv Hcount].
  refine (conj Hsrv (conj (answers_replies ex sched b) (conj Hcount
            (conj _ (conj _ (conj _ _)))))).
  - intros framesA framesB ->. now apply run_A_then_B.
  - intros who img w0 b0. apply step_other.
  - intros S Blob endpoint tokenA tokenB exercise blob st Hsame.
    unfold analyzeFrame_on, apiClient_post. now rewrite Hsame.
  - intros S Blob endpoint token exercise blob st Htok.
    unfold analyzeFrame_on, apiClient_post. simpl.
    apply String.eqb_neq in Htok. rewrite Htok.
    destruct (endpoint (Some token) exercise blob st) as [r st'].
    split; [reflexivity|]. intros data Hr. simpl in *. subst r.
    reflexivity.
Qed.

End WithServer.

Lemma two_on_both ex : both_on ex (two_on ex).
Proof. intros who. now destruct who. Qed.

Lemma sessions_share_one_counter_witness :
  repCount
    (serviceB
       (fst (run counting_server
               [(SessionA, true); (SessionA, true); (SessionB, false)]
               (two_on "squat") 0)))
  = 2.
Proof.
  rewrite (proj1 (proj2 (proj2 (proj2
             (sessions_share_one_counter counting_server "squat"%string
                [(SessionA, true); (SessionA, true); (SessionB, false)]
                (two_on "squat") 0 ltac:(discriminate)
                (two_on_both "squat")))))
             [true; true] [false] eq_refl).
  reflexivity.
Defined.

(** No server keeps two sessions of the rep-counting service apart and
    counts.  Whatever the server and whatever the frames of one curl: if
    a session alone in front of the server holds 1 after one curl and 2
    after two, then after session A has sent one curl and session B one
    curl, B does not hold 1 (it holds 2). *)
Lemma no_server_keeps_two_sessions_apart :
  ~ exists (B Img : Type)
           (analyze : string -> Img -> B -> Fetch AnalyzeResult * B)
           (b : B) (curl : list Img),
      lone analyze "bicep_curl_left" curl b = 1
      /\ lone analyze "bicep_curl_left" (curl ++ curl) b = 2
      /\ repCount
           (serviceB
              (fst (run analyze
                      (sent_by SessionA curl ++ sent_by SessionB curl)
                      (two_on "bicep_curl_left") b)))
         = 1.
Proof.
  intros (B & Img & analyze & b & curl & H1 & H2 & H3).
  unfold lone in H1, H2.
  rewrite (proj1 (CountFacts.processFrames_served analyze "bicep_curl_left"
                    curl (tracking "bicep_curl_left" "session-a") b
                    eq_refl eq_refl ltac:(discriminate))) in H1.
  rewrite (proj1 (CountFacts.processFrames_served analyze "bicep_curl_left"
                    (curl ++ curl) (tracking "bicep_curl_left" "session-a") b
                    eq_refl eq_refl ltac:(discriminate))) in H2.
  rewrite (run_A_then_B analyze "bicep_curl_left" curl curl
             (two_on "bicep_curl_left") b
             ltac:(discriminate) (two_on_both _)) in H3.
  rewrite CountFacts.replies_app, fold_left_app in H2. simpl in H1, H2, H3.
  rewrite H1 in H2. change 1 with (Z.max 1 0) in H2 at 1.
  rewrite fold_raise_max in H2. lia.
Qed.

End WorldFacts.

(** ** The workout page *)

Module WorkoutPageFacts.
Import JS WorkoutService WorkoutContext WorkoutPage.

Section WithFrames.
Context {Img : Type} (post : string -> Img -> Axios FrameData).

(** A frame leaves the timer, the mount flag, the session and the selected
    exercise as they are. *)
Lemma processFrame_frame cl blob p :
  processingInterval (processFrame cl post blob p) = processingInterval p
  /\ mounted (processFrame cl post blob p) = mounted p
  /\ currentSession (ctx (processFrame cl post blob p)) = currentSession (ctx p)
  /\ selectedExercise (ctx (processFrame cl post blob p))
     = selectedExercise (ctx p).
Proof.
  unfold processFrame.
  destruct (String.eqb (cl_selectedExercise cl) ""); [now repeat split|].
  destruct blob as [b|]; [|now repeat split].
  simpl. destruct (negb (mounted p)); [now repeat split|].
  destruct (analyzeFrame post (cl_selectedExercise cl) b) as [data|e];
    [|now repeat split].
  destruct (truthy (fd_success data)); [|now repeat split].
  unfold show_image. destruct (fd_processed_image data) as [img|];
    [destruct (String.eqb img "")|]; now repeat split.
Qed.

(** A frame that the server analyzed overwrites the four displayed fields
    with the object literal built by the callback. *)
Lemma processFrame_analyzed cl b data p :
  cl_selectedExercise cl <> ""%string ->
  mounted p = true ->
  post (cl_selectedExercise cl) b = Resolved data ->
  truthy (fd_success data) = true ->
  exerciseData (ctx (processFrame cl post (Some b) p))
  = {| reps := js_or (fd_reps data) (reps (cl_exerciseData cl));
       stage := js_or (fd_stage data) (stage (cl_exerciseData cl));
       angle := js_or (fd_angle data) (angle (cl_exerciseData cl));
       calories := js_or (fd_calories data) (calories (cl_exerciseData cl)) |}.
Proof.
  intros Hne Hm Hpost Hok. unfold processFrame, analyzeFrame.
  apply String.eqb_neq in Hne. rewrite Hne. simpl. rewrite Hm, Hpost, Hok.
  simpl. unfold show_image. destruct (fd_processed_image data) as [img|];
    [destruct (String.eqb img "")|]; reflexivity.
Qed.

Lemma ticks_app l1 l2 p :
  ticks post (l1 ++ l2) p = ticks post l2 (ticks post l1 p).
Proof.
  revert p. induction l1 as [|b l1 IH]; intros p; simpl; [reflexivity|].
  apply IH.
Qed.

Lemma ticks_frame cl blobs : forall p,
  running cl p ->
  running cl (ticks post blobs p)
  /\ currentSession (ctx (ticks post blobs p)) = currentSession (ctx p)
  /\ selectedExercise (ctx (ticks post blobs p)) = selectedExercise (ctx p).
Proof.
  induction blobs as [|b rest IH]; intros p Hrun; simpl.
  { split; [exact Hrun | split; reflexivity]. }
  destruct Hrun as (Hint & Hne & Hm).
  destruct (processFrame_frame cl (Some b) p) as (Hi & Hmm & Hs & He).
  assert (Hrun1 : running cl (tick post (Some b) p)).
  { unfold tick. rewrite Hint. repeat split; congruence. }
  destruct (IH _ Hrun1) as (Hr & Hs' & He').
  rewrite Hs', He'. unfold tick at 2 3. rewrite Hint.
  split; [exact Hr | split; assumption].
Qed.

(** Ending a session sends the data of the click's render, whatever the
    server then answers and whatever frames arrive in the meantime. *)
Lemma handleEndWorkout_sent post_end inflight reloading p sid :
  currentSession (ctx p) = Some sid ->
  snd (handleEndWorkout post_end post inflight reloading p)
  = Some (summary (ctx p)).
Proof.
  intros Hs. unfold handleEndWorkout, endWorkoutSession. rewrite Hs.
  now destruct (WorkoutService.endSession post_end sid (summary (ctx p))).
Qed.

(** A reset that the server accepts puts the initial data on display and
    keeps the session. *)
Lemma handleResetExercise_ok r post_reset p answer :
  selectedExercise (ctx r) <> ""%string ->
  post_reset (selectedExercise (ctx r)) = Resolved answer ->
  ctx (handleResetExercise r post_reset p)
  = with_exerciseData initialExerciseData (ctx p).
Proof.
  intros Hne Hreset.
  unfold handleResetExercise, resetExercise, WorkoutService.resetExercise.
  apply String.eqb_neq in Hne. now rewrite Hne, Hreset.
Qed.

(** C7, as the code has it: the page adds no calories up.  The total
    sent when the session ends is the calories figure that the page
    displays when End is clicked: the [calories] value of the last
    analyzed frame whenever that value is truthy, and 0 when the session
    is ended right after it was started or right after a reset of the
    exercise that the server accepted, whatever the frames before the
    reset carried.  Frames that arrive after the click change nothing of
    what is sent. *)
Theorem session_calories_are_latest_frame_value :
  (forall cl p sid blobs b data post_end inflight reloading,
      running cl p ->
      currentSession (ctx p) = Some sid ->
      post (cl_selectedExercise cl) b = Resolved data ->
      truthy (fd_success data) = true ->
      truthy (fd_calories data) = true ->
      calories_burned
        <$> snd (handleEndWorkout post_end post inflight reloading
                   (ticks post (blobs ++ [b]) p))
      = Some (fd_calories data))
  /\ (forall post_start camera p sid post_end inflight reloading,
      selectedExercise (ctx p) <> ""%string ->
      post_start (selectedExercise (ctx p)) JNull = Resolved (Some sid) ->
      calories_burned
        <$> snd (handleEndWorkout post_end post inflight reloading
                   (handleStartWorkout post_start camera p))
      = Some (JNum 0))
  /\ (forall r post_reset p sid answer post_end inflight reloading,
      selectedExercise (ctx r) <> ""%string ->
      post_reset (selectedExercise (ctx r)) = Resolved answer ->
      currentSession (ctx p) = Some sid ->
      calories_burned
        <$> snd (handleEndWorkout post_end post inflight reloading
                   (handleResetExercise r post_reset p))
      = Some (JNum 0)).
Proof.
  refine (conj _ (conj _ _)).
  - intros cl p sid blobs b data post_end inflight reloading
      Hrun Hsid Hpost Hok Hcal.
    rewrite ticks_app. simpl.
    destruct (ticks_frame cl blobs p Hrun) as ((Hint & Hne & Hm) & Hs & _).
    set (q := ticks post blobs p) in *.
    assert (Htick : tick post (Some b) q = processFrame cl post (Some b) q).
    { unfold tick. now rewrite Hint. }
    destruct (processFrame_frame cl (Some b) q) as (_ & _ & Hs2 & _).
    rewrite (handleEndWorkout_sent post_end inflight reloading _ sid)
      by (rewrite Htick, Hs2, Hs; exact Hsid).
    simpl. rewrite Htick.
    rewrite (processFrame_analyzed cl b data q Hne Hm Hpost Hok). simpl.
    unfold js_or. now rewrite Hcal.
  - intros post_start camera p sid post_end inflight reloading Hne Hstart.
    assert (Hctx : ctx (handleStartWorkout post_start camera p)
                   = {| currentSession := Some sid;
                        exerciseData := initialExerciseData;
                        isWorkoutActive := true;
                        selectedExercise := selectedExercise (ctx p) |}).
    { unfold handleStartWorkout, startWorkoutSession,
        WorkoutService.startSession.
      apply String.eqb_neq in Hne. rewrite Hne, Hstart.
      destruct (cameraActive p); [reflexivity|].
      unfold handleCameraStart. destruct (cameraActive p); [reflexivity|].
      now destruct camera. }
    rewrite (handleEndWorkout_sent post_end inflight reloading _ sid)
      by now rewrite Hctx.
    now rewrite Hctx.
  - intros r post_reset p sid answer post_end inflight reloading
      Hne Hreset Hsid.
    pose proof (handleResetExercise_ok r post_reset p answer Hne Hreset)
      as Hctx.
    rewrite (handleEndWorkout_sent post_end inflight reloading _ sid)
      by now rewrite Hctx.
    now rewrite Hctx.
Qed.

End WithFrames.

Lemma session_calories_are_latest_frame_value_witness :
  calories_burned
    <$> snd (handleEndWorkout accept_end replay [] []
               (ticks replay [answer 0 "down" (JNum 170) (JNum 2);
                              answer 1 "up" (JNum 25) (JNum 3)]
                  (handleStartWorkout accept_start true (mount "squat" true))))
  = Some (JNum 3).
Proof.
  apply (proj1 (session_calories_are_latest_frame_value replay)
           {| cl_selectedExercise := "squat";
              cl_exerciseData := initialExerciseData |}
           (handleStartWorkout accept_start true (mount "squat" true))
           (JStr "session-1")
           [answer 0 "down" (JNum 170) (JNum 2)]
           (answer 1 "up" (JNum 25) (JNum 3))
           (answer 1 "up" (JNum 25) (JNum 3))
           accept_end [] []).
  - split; [reflexivity|]. split; [discriminate | reflexivity].
  - reflexivity.
  - reflexivity.
  - reflexivity.
  - reflexivity.
Defined.

(** A workout on a fresh page.  Three frames are analyzed and answered
    with the calories 1, 2 and 3; the page shows 3.  The camera is
    switched off, the exercise is reset, and the workout is ended: the
    total sent is 0.  Whether the answers carry the running figure of the
    session (the frames are worth 1 + 1 + 1 = 3) or the calories of their
    own frame (1 + 2 + 3 = 6), the total is not the calories of the frames
    analyzed during the session. *)
Lemma calories_before_a_reset_are_not_reported :
  let answers := [answer 1 "up" (JNum 25) (JNum 1);
                  answer 2 "up" (JNum 25) (JNum 2);
                  answer 3 "up" (JNum 25) (JNum 3)] in
  let p1 := ticks replay answers
              (handleStartWorkout accept_start true (mount "squat" true)) in
  let p2 := stopCameraAndProcessing p1 in
  let p3 := handleResetExercise p2 accept_reset p2 in
  calories (exerciseData (ctx p1)) = JNum 3
  /\ calories_burned <$> snd (handleEndWorkout accept_end replay [] [] p3)
     = Some (JNum 0)
  /\ (gains 0 answers == 3)%Q
  /\ (sum_calories answers == 6)%Q
  /\ ~ (0 == gains 0 answers)%Q
  /\ ~ (0 == sum_calories answers)%Q.
Proof.
  simpl. refine (conj eq_refl (conj eq_refl (conj _ (conj _ (conj _ _)))));
    try reflexivity; discriminate.
Qed.

(** When the callback holds the data the page displays, a falsy field of
    the answer leaves the displayed field as it is. *)
Lemma frame_update_current_closure c data :
  let c' := updateExerciseData (frame_update (exerciseData c) data) c in
  (truthy (fd_reps data) = false ->
   reps (exerciseData c') = reps (exerciseData c))
  /\ (truthy (fd_stage data) = false ->
      stage (exerciseData c') = stage (exerciseData c))
  /\ (truthy (fd_angle data) = false ->
      angle (exerciseData c') = angle (exerciseData c))
  /\ (truthy (fd_calories data) = false ->
      calories (exerciseData c') = calories (exerciseData c)).
Proof.
  simpl. unfold js_or. repeat split; intros ->; reflexivity.
Qed.

(** C9 on the code: the interval timer keeps calling the callback of the
    render in which the camera was started, so the fallback of a falsy
    field is the data of that render, not the data on display.  The
    workout is started on a fresh page; the first answer shows an elbow
    angle of 25 degrees and one rep; an answer with the landmarks lost
    ([angle = null]) then takes the displayed angle from 25 to null, and
    an answer with [reps = 0] takes the displayed reps from 1 to 0. *)
Theorem stale_callback_drops_displayed_angle :
  let p0 := handleStartWorkout accept_start true
              (mount "bicep_curl_left" true) in
  let lost := answer 1 "up" JNull JUndefined in
  let zero := answer 0 "up" (JNum 25) JUndefined in
  let p1 := tick replay (Some (answer 1 "up" (JNum 25) JUndefined)) p0 in
  let p2 := tick replay (Some lost) p1 in
  let p3 := tick replay (Some zero) p1 in
  processingInterval p1
  = Some {| cl_selectedExercise := "bicep_curl_left";
            cl_exerciseData := initialExerciseData |}
  /\ angle (exerciseData (ctx p1)) = JNum 25
  /\ reps (exerciseData (ctx p1)) = JNum 1
  /\ truthy (fd_angle lost) = false
  /\ angle (exerciseData (ctx p2)) = JNull
  /\ truthy (fd_reps zero) = false
  /\ reps (exerciseData (ctx p3)) = JNum 0.
Proof. vm_compute. repeat split. Qed.

End WorkoutPageFacts.

(** ** More on the rep-counting service *)

Module ServiceExtras.
Import JS Http RepCountingService.
Local Open Scope Z_scope.

Section WithBackend.
Context {B Img : Type}.
Context (select : string -> B -> Fetch jsval * B).
Context (session_start : string -> string -> B -> Fetch jsval * B).
Context (analyze : string -> Img -> B -> Fetch AnalyzeResult * B).
Context (session_end : jsval -> B -> Fetch jsval * B).

(** The service right after a start request that the server accepted. *)
Lemma processFrame_active_after_start token s b ex sid b1 :
  currentExercise s = Some ex ->
  ex <> ""%string ->
  session_start ex token b = (Ok sid, b1) ->
  (fst (fst (fst (startSession session_start token s b)))
   = {| isActive := true; currentExercise := currentExercise s;
        repCount := repCount s; sessionId := sid;
        websocket := websocket s; callbacks := callbacks s |}
   /\ currentExercise s = Some ex)
  /\ snd (fst (fst (startSession session_start token s b))) = b1.
Proof.
  intros Hex Hne Hstart. unfold startSession.
  rewrite Hex. apply String.eqb_neq in Hne. rewrite Hne, Hstart. simpl.
  now repeat split.
Qed.

(** X1: a frame that is reported as failed leaves the service exactly as
    it was, whatever went wrong: the session not active, the request
    rejected, a response that is not ok, or an analysis that the server
    answers with [success: false]. *)
Theorem failed_frame_leaves_service img s b s' b' e ev :
  processFrame analyze img s b = (s', b', ProcessFailed e, ev) ->
  s' = s.
Proof.
  unfold processFrame.
  destruct (negb (isActive s) || negb (truthy_str (currentExercise s))).
  { now intros [= <- _ _ _]. }
  destruct (currentExercise s) as [ex|]; [|now intros [= <- _ _ _]].
  destruct (analyze ex img b) as [[msg|st|result] b0];
    try (now intros [= <- _ _ _]).
  unfold absorb. destruct (success result).
  - destruct (repCount s <? reps result); discriminate.
  - now intros [= <- _ _ _].
Qed.

(** X2: processing a frame never opens or closes the session and never
    changes the selected exercise, the session id, the socket or the
    callbacks: the count is the only field it can touch. *)
Theorem processFrame_touches_only_count img s b :
  let s' := fst (fst (fst (processFrame analyze img s b))) in
  isActive s' = isActive s
  /\ currentExercise s' = currentExercise s
  /\ sessionId s' = sessionId s
  /\ websocket s' = websocket s
  /\ callbacks s' = callbacks s.
Proof.
  unfold processFrame.
  destruct (negb (isActive s) || negb (truthy_str (currentExercise s)));
    [now simpl|].
  destruct (currentExercise s) as [ex|] eqn:Hex; [|now simpl].
  destruct (analyze ex img b) as [[msg|st|result] b0]; try (now simpl).
  pose proof (RepCountingServiceFacts.absorb_state result s) as H.
  destruct (absorb result s) as [[s1 r] ev]. simpl in *. subst s1.
  now simpl.
Qed.

(** X3: over any run of frames of an active service, the count at the end
    is the running maximum of the count at the start and the counts of
    the analyses that succeeded; replies that failed in any way do not
    count. *)
Theorem count_is_running_maximum ex frames : forall s b,
  isActive s = true ->
  currentExercise s = Some ex ->
  ex <> ""%string ->
  repCount (fst (fst (processFrames analyze frames s b)))
  = fold_left raise (replies analyze ex frames b) (repCount s).
Proof.
  induction frames as [|f rest IH]; intros s b Hact Hex Hne; [reflexivity|].
  destruct (RepCountingServiceFacts.processFrame_active analyze f s b ex
              Hact Hex Hne) as [Hs Hb].
  simpl.
  destruct (processFrame analyze f s b) as [[[s1 b1] r] ev] eqn:Hstep.
  simpl in Hs, Hb.
  destruct (analyze ex f b) as [reply b'] eqn:Hreply. simpl in Hs, Hb.
  subst b1.
  specialize (IH s1 b').
  destruct (processFrames analyze rest s1 b') as [[s2 b2] rs]. simpl in *.
  rewrite IH; subst s1; simpl; auto.
Qed.

(** X4: the [onRepDetected] callback is called exactly when an analysis
    that succeeded reports a count above the one the service holds, and
    then with the reported count and stage; a count that stays or falls
    back is never announced. *)
Theorem onRepDetected_only_on_rise img s b ex result b' h n st :
  isActive s = true ->
  currentExercise s = Some ex ->
  ex <> ""%string ->
  analyze ex img b = (Ok result, b') ->
  In (RepDetected h n st) (snd (processFrame analyze img s b))
  <-> (success result = true
       /\ repCount s < reps result
       /\ onRepDetected (callbacks s) = Some h
       /\ n = reps result
       /\ st = stage result).
Proof.
  intros Hact Hex Hne Hreply. apply String.eqb_neq in Hne.
  unfold processFrame. rewrite Hact, Hex. simpl. rewrite Hne. simpl.
  rewrite Hreply. unfold absorb.
  destruct (success result); simpl.
  - destruct (repCount s <? reps result) eqn:E; simpl.
    + apply Z.ltb_lt in E.
      destruct (onRepDetected (callbacks s)) as [h0|]; simpl.
      * split.
        -- intros [H | H].
           ++ injection H as <- <- <-. auto.
           ++ destruct (feedback result) as [fb|];
                [destruct (onFormFeedback (callbacks s));
                 [destruct (String.eqb fb "")|]|]; simpl in H;
                try contradiction; destruct H as [H|[]]; discriminate.
        -- intros (_ & _ & [= ->] & -> & ->). now left.
      * split.
        -- intros H.
           destruct (feedback result) as [fb|];
             [destruct (onFormFeedback (callbacks s));
              [destruct (String.eqb fb "")|]|]; simpl in H;
             try contradiction; destruct H as [H|[]]; discriminate.
        -- intros (_ & _ & [=] & _).
    + apply Z.ltb_ge in E. split.
      * intros H.
        destruct (feedback result) as [fb|];
          [destruct (onFormFeedback (callbacks s));
           [destruct (String.eqb fb "")|]|]; simpl in H;
          try contradiction; destruct H as [H|[]]; discriminate.
      * intros (_ & Hlt & _). lia.
  - split; [intros [] | intros ([=] & _)].
Qed.

(** X5: a session is ended once.  After a successful [endSession], a
    second call sends nothing, reports 'No active session' as a success and
    leaves the service as the first call left it. *)
Theorem endSession_twice s b s' b' n data ev b2 :
  endSession session_end s b = (s', b', EndOk n data, ev) ->
  endSession session_end s' b2
  = (s', b2, EndNoSession "No active session"%string, []).
Proof.
  intros H.
  destruct (RepCountingServiceFacts.endSession_ok_inv _ _ _ _ _ _ _ _ H)
    as [_ ->].
  reflexivity.
Qed.

(** X6: after [cleanup] the service is silent: a frame is refused with
    'Session not active' and [endSession] answers 'No active session', both
    without a request to the server, and a second [cleanup] changes
    nothing.  The selected exercise and the callbacks survive. *)
Theorem cleanup_silences_service img s b :
  processFrame analyze img (cleanup s) b
  = (cleanup s, b, ProcessFailed (Some "Session not active"%string), [])
  /\ endSession session_end (cleanup s) b
     = (cleanup s, b, EndNoSession "No active session"%string, [])
  /\ cleanup (cleanup s) = cleanup s
  /\ currentExercise (cleanup s) = currentExercise s
  /\ callbacks (cleanup s) = callbacks s.
Proof. repeat split. Qed.

(** X7: a session without an id cannot be ended.  When the body of the
    start response has no truthy [session_id] (missing, null, 0 or the
    empty string), [startSession] still reports success and marks the
    service active; [endSession] then answers 'No active session' without
    a request, and the service stays active, so frames keep being sent. *)
Theorem session_without_id_stays_open token s b ex sid b1 :
  currentExercise s = Some ex ->
  ex <> ""%string ->
  session_start ex token b = (Ok sid, b1) ->
  truthy sid = false ->
  let s1 := fst (fst (fst (startSession session_start token s b))) in
  start_success (snd (fst (startSession session_start token s b))) = true
  /\ isActive s1 = true
  /\ (forall b2,
       endSession session_end s1 b2
       = (s1, b2, EndNoSession "No active session"%string, []))
  /\ (forall img b2,
       snd (fst (fst (processFrame analyze img s1 b2)))
       = snd (analyze ex img b2)).
Proof.
  intros Hex Hne Hstart Hfalsy.
  destruct (proj1 (processFrame_active_after_start token s b ex sid b1
                     Hex Hne Hstart)) as [Hs1 Hex1].
  intros s1. subst s1. rewrite Hs1. simpl.
  split; [|split; [reflexivity|split]].
  - unfold startSession. rewrite Hex. apply String.eqb_neq in Hne.
    now rewrite Hne, Hstart.
  - intros b2. unfold endSession. simpl. now rewrite Hfalsy.
  - intros img b2.
    now destruct (RepCountingServiceFacts.processFrame_active analyze img
                    {| isActive := true; currentExercise := currentExercise s;
                       repCount := repCount s; sessionId := sid;
                       websocket := websocket s; callbacks := callbacks s |}
                    b2 ex eq_refl Hex Hne) as [_ ->].
Qed.

(** X8: [initialize] zeroes the count and switches to the new exercise
    before it asks the server, so both happen even when the selection is
    refused; it never opens or closes a session; and an error is reported
    to the [onError] callback of the merged callbacks, that is to the one
    passed in this call when there is one. *)
Theorem initialize_resets_before_asking ex cbs s b :
  let '(s1, _, r, ev) := initialize select ex cbs s b in
  repCount s1 = 0
  /\ currentExercise s1 = Some ex
  /\ isActive s1 = isActive s
  /\ sessionId s1 = sessionId s
  /\ callbacks s1 = merge_callbacks (callbacks s) cbs
  /\ forall msg, r = InitFailed msg ->
       ev = match arg_onError cbs with
            | Some (Some h) => [ErrorReported h msg]
            | Some None => []
            | None => report_error s msg
            end.
Proof.
  unfold initialize.
  destruct (select ex b) as [[msg|st|data] b']; simpl;
    (repeat split; try reflexivity; intros m [= <-] || intros m [=]);
    unfold report_error, merge_callbacks, merge_slot; simpl;
    now destruct (arg_onError cbs) as [[h|]|].
Qed.

(** X9: a session that was started and then ended: the id sent with the
    end request is the id the start request came back with, the reported
    final count is the count held at that moment, and the service is
    closed with the count at 0 and the exercise still selected. *)
Theorem started_session_ends_by_its_id token s b ex sid b1 data b2 :
  currentExercise s = Some ex ->
  ex <> ""%string ->
  session_start ex token b = (Ok sid, b1) ->
  truthy sid = true ->
  session_end sid b1 = (Ok data, b2) ->
  let s1 := fst (fst (fst (startSession session_start token s b))) in
  endSession session_end s1 b1
  = ({| isActive := false; currentExercise := Some ex; repCount := 0;
        sessionId := JNull; websocket := websocket s;
        callbacks := callbacks s |}, b2, EndOk (repCount s) data, []).
Proof.
  intros Hex Hne Hstart Htruthy Hend.
  destruct (proj1 (processFrame_active_after_start token s b ex sid b1
                     Hex Hne Hstart)) as [Hs1 _].
  intros s1. subst s1. rewrite Hs1. unfold endSession. simpl.
  now rewrite Htruthy, Hend, Hex.
Qed.

End WithBackend.

Lemma failed_frame_leaves_service_witness :
  fst (fst (fst (processFrame replay_analysis (Ok (refused "no pose")) busy tt)))
  = busy.
Proof.
  apply (failed_frame_leaves_service replay_analysis (Ok (refused "no pose"))
           busy tt _ tt (Some "no pose"%string) []).
  reflexivity.
Defined.

Lemma onRepDetected_only_on_rise_witness :
  In (RepDetected 1 5 "up")
     (snd (processFrame replay_analysis (Ok (counted 5 "up")) busy tt)).
Proof.
  apply (proj2 (onRepDetected_only_on_rise replay_analysis
                  (Ok (counted 5 "up")) busy tt "squat"%string
                  (counted 5 "up") tt 1%nat 5 "up"%string
                  eq_refl eq_refl ltac:(discriminate) eq_refl)).
  repeat split; reflexivity.
Defined.

Lemma endSession_twice_witness :
  endSession accepting_end
    (fst (fst (fst (endSession accepting_end busy tt)))) tt
  = (fst (fst (fst (endSession accepting_end busy tt))), tt,
     EndNoSession "No active session", []).
Proof.
  apply (endSession_twice accepting_end busy tt _ tt 4 (JStr "ended") [] tt).
  reflexivity.
Defined.

Lemma session_without_id_stays_open_witness :
  isActive
    (fst (fst (fst (startSession anonymous_start "default_user" busy tt))))
  = true.
Proof.
  exact (proj1 (proj2
    (session_without_id_stays_open anonymous_start replay_analysis
       accepting_end "default_user"%string busy tt "squat"%string
       JUndefined tt eq_refl ltac:(discriminate) eq_refl eq_refl))).
Defined.

Lemma started_session_ends_by_its_id_witness :
  endSession accepting_end
    (fst (fst (fst (startSession accepting_start "default_user" busy tt)))) tt
  = ({| isActive := false; currentExercise := Some "squat"%string;
        repCount := 0; sessionId := JNull; websocket := websocket busy;
        callbacks := callbacks busy |}, tt, EndOk 4 (JStr "ended"), []).
Proof.
  apply (started_session_ends_by_its_id accepting_start accepting_end
           "default_user"%string busy tt "squat"%string
           (JStr "session-of-default_user") tt (JStr "ended") tt);
    (reflexivity || discriminate).
Defined.

Lemma initialize_resets_before_asking_witness :
  snd (initialize refusing_select "lunge" (only_onError 7) busy tt)
  = [ErrorReported 7 "Failed to select exercise: Not Found"].
Proof.
  pose proof (initialize_resets_before_asking refusing_select
                "lunge"%string (only_onError 7) busy tt) as H.
  simpl in H. destruct H as (_ & _ & _ & _ & _ & H).
  exact (H _ eq_refl).
Defined.

Lemma count_is_running_maximum_witness :
  repCount
    (fst (fst (processFrames replay_analysis
                 [Ok (counted 5 "up"); Rejected "timeout";
                  Ok (counted 3 "down"); Ok (refused "no pose");
                  Ok (counted 6 "up")] busy tt)))
  = 6.
Proof.
  rewrite (count_is_running_maximum replay_analysis "squat"%string
             [Ok (counted 5 "up"); Rejected "timeout";
              Ok (counted 3 "down"); Ok (refused "no pose");
              Ok (counted 6 "up")] busy tt);
    [reflexivity | reflexivity | reflexivity | discriminate].
Defined.

End ServiceExtras.

(** ** More on the workout service and the workout context *)

Module ContextExtras.
Import JS WorkoutService WorkoutContext.

Lemma error_text_truthy d m fallback :
  fallback <> ""%string -> truthy (error_text d m fallback) = true.
Proof.
  intros Hne. unfold error_text, js_or.
  destruct (truthy d) eqn:Hd; simpl.
  - now rewrite Hd.
  - destruct (truthy m) eqn:Hm; [now rewrite Hm|].
    simpl. apply String.eqb_neq in Hne. now rewrite Hne.
Qed.

(** X10: a call of the workout service that fails always says why: the
    [error] of the reply is never undefined, null or empty.  It is the
    detail of the server when there is one, else the message of the
    transport error when there is one, else the fixed text of the
    method. *)
Theorem service_failure_has_text :
  (forall (Img : Type) (post : string -> Img -> Axios FrameData) ex img e,
      analyzeFrame post ex img = Failure e -> truthy e = true)
  /\ (forall post ex plan e,
      WorkoutService.startSession post ex plan = Failure e -> truthy e = true)
  /\ (forall post sid sent e,
      WorkoutService.endSession post sid sent = Failure e -> truthy e = true)
  /\ (forall post ex e,
      WorkoutService.resetExercise post ex = Failure e -> truthy e = true)
  /\ (forall get e, getAvailableExercises get = Failure e -> truthy e = true)
  /\ (forall get e, healthCheck get = Failure e -> truthy e = true)
  /\ (forall d m fallback,
      error_text d m fallback
      = if truthy d then d else if truthy m then m else JStr fallback).
Proof.
  repeat split.
  - intros Img post ex img e. unfold analyzeFrame.
    destruct (post ex img); [discriminate|]. intros [= <-].
    now apply error_text_truthy.
  - intros post ex plan e. unfold WorkoutService.startSession.
    destruct (post ex plan); [discriminate|]. intros [= <-].
    now apply error_text_truthy.
  - intros post sid sent e. unfold WorkoutService.endSession.
    destruct (post sid sent); [discriminate|]. intros [= <-].
    now apply error_text_truthy.
  - intros post ex e. unfold WorkoutService.resetExercise.
    destruct (post ex); [discriminate|]. intros [= <-].
    now apply error_text_truthy.
  - intros get e. unfold getAvailableExercises.
    destruct get; [discriminate|]. intros [= <-].
    now apply error_text_truthy.
  - intros get e. unfold healthCheck.
    destruct get; [discriminate|]. intros [= <-].
    now apply error_text_truthy.
  - intros d m fallback. unfold error_text, js_or.
    destruct (truthy d) eqn:Hd; simpl; [now rewrite Hd|].
    now destruct (truthy m).
Qed.

Lemma service_failure_has_text_witness :
  truthy (error_text JUndefined (JStr "") "Failed to end session") = true.
Proof.
  apply (proj1 (proj2 (proj2 service_failure_has_text))
           (fun _ _ => Thrown JUndefined (JStr "")) JNull
           {| total_reps := JNum 0; calories_burned := JNum 0;
              exercises_performed := [] |}).
  reflexivity.
Defined.

Lemma state_eta (c : State) :
  {| currentSession := currentSession c; exerciseData := exerciseData c;
     isWorkoutActive := isWorkoutActive c;
     selectedExercise := selectedExercise c |} = c.
Proof. now destruct c. Qed.

(** X11: updates of the exercise data compose like object spreads: two
    updates in a row are one update with the second literal spread over
    the first, so for every key the last writer wins; an update with an
    empty literal changes nothing; and nothing but the exercise data is
    touched. *)
Theorem updateExerciseData_composes a b c :
  updateExerciseData b (updateExerciseData a c)
  = updateExerciseData (overlay a b) c
  /\ updateExerciseData
       {| p_reps := None; p_stage := None; p_angle := None;
          p_calories := None |} c = c
  /\ currentSession (updateExerciseData a c) = currentSession c
  /\ isWorkoutActive (updateExerciseData a c) = isWorkoutActive c
  /\ selectedExercise (updateExerciseData a c) = selectedExercise c.
Proof.
  split; [|split; [|now repeat split]].
  - unfold updateExerciseData, with_exerciseData, overlay, spread. simpl.
    destruct a as [[?|] [?|] [?|] [?|]], b as [[?|] [?|] [?|] [?|]];
      reflexivity.
  - unfold updateExerciseData, with_exerciseData, spread. simpl.
    destruct c as [cs [r st an ca] act sel]. reflexivity.
Qed.

(** X12: a workout that starts without a session object cannot be ended.
    When the start response has no [session], [startWorkoutSession] still
    succeeds and marks the workout active, but every later
    [endWorkoutSession] fails with 'No active session' without a request,
    and leaves the workout active. *)
Theorem workout_without_session_never_ends post ex plan c :
  post ex plan = Resolved None ->
  let c1 := fst (startWorkoutSession post ex plan c) in
  snd (startWorkoutSession post ex plan c) = Success tt
  /\ isWorkoutActive c1 = true
  /\ forall post_end,
       endWorkoutSession post_end c1
       = (c1, Failure (JStr "No active session"), None).
Proof.
  intros Hpost. unfold startWorkoutSession, WorkoutService.startSession.
  rewrite Hpost. simpl. now repeat split.
Qed.

Lemma workout_without_session_never_ends_witness :
  isWorkoutActive
    (fst (startWorkoutSession (fun _ _ => Resolved None) "squat" JNull
            {| currentSession := None; exerciseData := initialExerciseData;
               isWorkoutActive := false; selectedExercise := "" |}))
  = true.
Proof.
  exact (proj1 (proj2
    (workout_without_session_never_ends (fun _ _ => Resolved None)
       "squat"%string JNull
       {| currentSession := None; exerciseData := initialExerciseData;
          isWorkoutActive := false; selectedExercise := "" |} eq_refl))).
Defined.

(** X13: ending a workout either resets the context or leaves it alone.
    When the request fails, the context is exactly as before, so a retry
    sends the same summary; when it succeeds, the session is dropped, the
    data is back at its initial values and the selected exercise is kept,
    and a second [endWorkoutSession] fails with 'No active session'
    without a request. *)
Theorem endWorkoutSession_all_or_nothing post c sid :
  currentSession c = Some sid ->
  (forall d m,
      post sid (summary c) = Thrown d m ->
      endWorkoutSession post c
      = (c, Failure (error_text d m "Failed to end session"),
         Some (summary c)))
  /\ (forall session,
      post sid (summary c) = Resolved session ->
      fst (fst (endWorkoutSession post c))
      = {| currentSession := None; exerciseData := initialExerciseData;
           isWorkoutActive := false;
           selectedExercise := selectedExercise c |}
      /\ forall post',
           endWorkoutSession post' (fst (fst (endWorkoutSession post c)))
           = (fst (fst (endWorkoutSession post c)),
              Failure (JStr "No active session"), None)).
Proof.
  intros Hsid. split.
  - intros d m Hpost. unfold endWorkoutSession, WorkoutService.endSession.
    now rewrite Hsid, Hpost.
  - intros session Hpost.
    unfold endWorkoutSession, WorkoutService.endSession.
    rewrite Hsid, Hpost. simpl. now split.
Qed.

Lemma endWorkoutSession_all_or_nothing_witness :
  let c := {| currentSession := Some (JStr "session-1");
              exerciseData := {| reps := JNum 7; stage := JStr "up";
                                 angle := JNum 25; calories := JNum 3 |};
              isWorkoutActive := true; selectedExercise := "squat" |} in
  endWorkoutSession (fun _ _ => Thrown JUndefined (JStr "Network Error")) c
  = (c, Failure (JStr "Network Error"), Some (summary c)).
Proof.
  intros c.
  apply (proj1 (endWorkoutSession_all_or_nothing
                  (fun _ _ => Thrown JUndefined (JStr "Network Error")) c
                  (JStr "session-1") eq_refl)
           JUndefined (JStr "Network Error")).
  reflexivity.
Defined.

(** X14: [resetExercise] that cannot reset says so and changes nothing.
    With no exercise selected it fails without asking the server (the
    server plays no part in the outcome); when the server refuses, the
    context is unchanged; and in both cases the error is the fixed text
    'Failed to reset exercise', whatever the server said. *)
Theorem resetExercise_failure_is_silent c :
  (selectedExercise c = ""%string ->
   forall post,
     resetExercise post c = (c, Failure (JStr "Failed to reset exercise")))
  /\ (forall post d m,
      post (selectedExercise c) = Thrown d m ->
      resetExercise post c = (c, Failure (JStr "Failed to reset exercise")))
  /\ (forall post c' e,
      resetExercise post c = (c', Failure e) ->
      c' = c /\ e = JStr "Failed to reset exercise").
Proof.
  split; [|split].
  - intros Hsel post. unfold resetExercise. now rewrite Hsel.
  - intros post d m Hpost. unfold resetExercise, WorkoutService.resetExercise.
    rewrite Hpost. now destruct (String.eqb (selectedExercise c) "").
  - intros post c' e. unfold resetExercise.
    destruct (String.eqb (selectedExercise c) ""); [now intros [= <- <-]|].
    destruct (WorkoutService.resetExercise post (selectedExercise c));
      [discriminate | now intros [= <- <-]].
Qed.

Lemma resetExercise_failure_is_silent_witness :
  let c := {| currentSession := None; exerciseData := initialExerciseData;
              isWorkoutActive := false; selectedExercise := "" |} in
  resetExercise (fun _ => Resolved (JStr "reset")) c
  = (c, Failure (JStr "Failed to reset exercise")).
Proof.
  intros c.
  apply (proj1 (resetExercise_failure_is_silent c) eq_refl).
Defined.

(** X15: loading the list of exercises never overrides a selection.  The
    first exercise of the list is selected only when nothing is selected
    and the list is not empty; a failed request leaves the list and the
    selection as they were; and session, data and activity are untouched
    in every case. *)
Theorem loadAvailableExercises_keeps_selection get available c :
  let '(available', c') := loadAvailableExercises get available c in
  (selectedExercise c <> ""%string -> c' = c)
  /\ (selectedExercise c = ""%string ->
      forall first rest,
        get = Resolved (Some (first :: rest)) ->
        selectedExercise c' = first /\ available' = first :: rest)
  /\ (forall d m, get = Thrown d m -> available' = available /\ c' = c)
  /\ currentSession c' = currentSession c
  /\ exerciseData c' = exerciseData c
  /\ isWorkoutActive c' = isWorkoutActive c.
Proof.
  unfold loadAvailableExercises, getAvailableExercises.
  destruct get as [[[|first rest]|]|d m]; simpl.
  - refine (conj _ (conj _ (conj _ (conj _ (conj _ _)))));
      try reflexivity; intros; discriminate.
  - destruct (String.eqb (selectedExercise c) "") eqn:E.
    + apply String.eqb_eq in E.
      refine (conj _ (conj _ (conj _ (conj _ (conj _ _)))));
        try reflexivity.
      * intros Hne. contradiction.
      * intros _ f r [= <- <-]. now split.
      * intros; discriminate.
    + apply String.eqb_neq in E.
      refine (conj _ (conj _ (conj _ (conj _ (conj _ _)))));
        try reflexivity.
      * intros Hsel. contradiction.
      * intros; discriminate.
  - refine (conj _ (conj _ (conj _ (conj _ (conj _ _)))));
      try reflexivity; intros; discriminate.
  - refine (conj _ (conj _ (conj _ (conj _ (conj _ _)))));
      try reflexivity.
    + intros; discriminate.
    + intros; now split.
Qed.

Lemma loadAvailableExercises_keeps_selection_witness :
  selectedExercise
    (snd (loadAvailableExercises (Resolved (Some ["pushup"; "squat"])) []
            {| currentSession := None; exerciseData := initialExerciseData;
               isWorkoutActive := false; selectedExercise := "" |}))
  = "pushup"%string.
Proof.
  pose proof (loadAvailableExercises_keeps_selection
                (Resolved (Some ["pushup"; "squat"]%string)) []
                {| currentSession := None;
                   exerciseData := initialExerciseData;
                   isWorkoutActive := false; selectedExercise := "" |}) as H.
  simpl in H. destruct H as (_ & H & _).
  exact (proj1 (H eq_refl _ _ eq_refl)).
Defined.

End ContextExtras.

(** ** More on the workout page *)

Module PageExtras.
Import JS WorkoutService WorkoutContext WorkoutPage.

Section WithFrames.
Context {Img : Type} (post : string -> Img -> Axios FrameData).

(** X16: an analysis that fails changes nothing on display.  When the
    request throws, when the server answers without a truthy [success], or
    when the page is no longer mounted, the exercise data, the processed
    image and the error stay as they are, and the timer keeps running with
    the same callback. *)
Theorem failed_analysis_keeps_display cl b p :
  (exists d m, post (cl_selectedExercise cl) b = Thrown d m)
  \/ (exists data, post (cl_selectedExercise cl) b = Resolved data
                   /\ truthy (fd_success data) = false)
  \/ mounted p = false ->
  ctx (processFrame cl post (Some b) p) = ctx p
  /\ processedImage (processFrame cl post (Some b) p) = processedImage p
  /\ error (processFrame cl post (Some b) p) = error p
  /\ processingInterval (processFrame cl post (Some b) p)
     = processingInterval p.
Proof.
  intros H. unfold processFrame, analyzeFrame.
  destruct (String.eqb (cl_selectedExercise cl) ""); [now repeat split|].
  simpl. destruct (mounted p) eqn:Hm; simpl; [|now repeat split].
  destruct H as [(d & m & ->) | [(data & -> & ->) | H]];
    [now repeat split | now repeat split | discriminate].
Qed.

Lemma ticks_without_timer blobs : forall p,
  processingInterval p = None -> ticks post blobs p = p.
Proof.
  induction blobs as [|b rest IH]; intros p Hnone; [reflexivity|].
  simpl. unfold tick. rewrite Hnone. now apply IH.
Qed.

End WithFrames.

Lemma failed_analysis_keeps_display_witness :
  let p := handleStartWorkout accept_start true (mount "squat" true) in
  ctx (processFrame (render p)
         (fun _ (_ : unit) => @Thrown FrameData JUndefined (JStr "timeout"))
         (Some tt) p)
  = ctx p.
Proof.
  intros p.
  apply (failed_analysis_keeps_display
           (fun _ (_ : unit) => @Thrown FrameData JUndefined (JStr "timeout"))
           (render p) tt p).
  left. now exists JUndefined, (JStr "timeout").
Defined.

(** Frames write the exercise data; the session and the activity flag
    are not theirs to change. *)
Lemma ticks_keep_session {Img : Type} (post : string -> Img -> Axios FrameData)
    blobs : forall p,
  currentSession (ctx (ticks post blobs p)) = currentSession (ctx p)
  /\ isWorkoutActive (ctx (ticks post blobs p)) = isWorkoutActive (ctx p).
Proof.
  induction blobs as [|b rest IH]; intros p; [now split|].
  simpl. destruct (IH (tick post (Some b) p)) as [-> ->].
  unfold tick. destruct (processingInterval p) as [cl|]; [|now split].
  unfold processFrame.
  destruct (String.eqb (cl_selectedExercise cl) ""); [now split|].
  simpl. destruct (negb (mounted p)); [now split|].
  destruct (analyzeFrame post (cl_selectedExercise cl) b) as [data|e];
    [|now split].
  destruct (truthy (fd_success data)); [|now split].
  unfold show_image. destruct (fd_processed_image data) as [img|];
    [destruct (String.eqb img "")|]; now split.
Qed.

(** X17: once a workout has ended, the frame timer is gone: the camera is
    off, the session is dropped, and no later tick, whatever the server
    would answer, changes the page.  The displayed data is back at its
    initial values only when no frame is analyzed while the handler waits
    for the history to reload; a frame analyzed in that window is merged
    into the data as usual, and what it wrote stays on display after the
    end. *)
Theorem ended_workout_ignores_ticks {Img : Type}
    (post : string -> Img -> Axios FrameData)
    post_end inflight reloading p sid session :
  currentSession (ctx p) = Some sid ->
  post_end sid (summary (ctx p)) = Resolved session ->
  let p' := fst (handleEndWorkout post_end post inflight reloading p) in
  cameraActive p' = false
  /\ processingInterval p' = None
  /\ currentSession (ctx p') = None
  /\ isWorkoutActive (ctx p') = false
  /\ (forall (Img' : Type) (post' : string -> Img' -> Axios FrameData) blobs,
        ticks post' blobs p' = p')
  /\ (reloading = [] -> exerciseData (ctx p') = initialExerciseData)
  /\ (forall cl earlier b data,
        running cl p ->
        reloading = earlier ++ [b] ->
        post (cl_selectedExercise cl) b = Resolved data ->
        truthy (fd_success data) = true ->
        exerciseData (ctx p')
        = {| reps := js_or (fd_reps data) (reps (cl_exerciseData cl));
             stage := js_or (fd_stage data) (stage (cl_exerciseData cl));
             angle := js_or (fd_angle data) (angle (cl_exerciseData cl));
             calories :=
               js_or (fd_calories data) (calories (cl_exerciseData cl)) |}).
Proof.
  intros Hsid Hpost p'. subst p'.
  unfold handleEndWorkout, endWorkoutSession, WorkoutService.endSession.
  rewrite Hsid, Hpost. simpl.
  set (p2 := with_ctx _ (ticks post inflight p)).
  assert (Hkeep : forall cl, running cl p -> running cl p2).
  { intros cl Hrun.
    destruct (WorkoutPageFacts.ticks_frame post cl inflight p Hrun)
      as [Hrun1 _].
    exact Hrun1. }
  refine (conj eq_refl (conj eq_refl (conj _ (conj _ (conj _ (conj _ _)))))).
  - now rewrite (proj1 (ticks_keep_session post reloading p2)).
  - now rewrite (proj2 (ticks_keep_session post reloading p2)).
  - intros Img' post' blobs. now apply ticks_without_timer.
  - intros ->. reflexivity.
  - intros cl earlier b data Hrun -> Hb Hok.
    rewrite WorkoutPageFacts.ticks_app. simpl.
    destruct (WorkoutPageFacts.ticks_frame post cl earlier p2 (Hkeep cl Hrun))
      as ((Hint & Hne & Hm) & _).
    unfold tick. rewrite Hint.
    now rewrite (WorkoutPageFacts.processFrame_analyzed post cl b data _
                   Hne Hm Hb Hok).
Qed.

Lemma ended_workout_ignores_ticks_witness :
  let p := ticks replay [answer 3 "up" (JNum 25) (JNum 2)]
             (handleStartWorkout accept_start true (mount "squat" true)) in
  reps (exerciseData
          (ctx (fst (handleEndWorkout accept_end replay []
                       [answer 4 "up" (JNum 20) (JNum 3)] p))))
  = JNum 4.
Proof.
  intros p.
  rewrite (proj2 (proj2 (proj2 (proj2 (proj2 (proj2
             (ended_workout_ignores_ticks replay accept_end []
                [answer 4 "up" (JNum 20) (JNum 3)] p
                (JStr "session-1") (JStr "stored") eq_refl eq_refl))))))
             {| cl_selectedExercise := "squat";
                cl_exerciseData := initialExerciseData |}
             [] (answer 4 "up" (JNum 20) (JNum 3))
             (answer 4 "up" (JNum 20) (JNum 3))
             ltac:(split; [reflexivity|split; [discriminate|reflexivity]])
             eq_refl eq_refl eq_refl).
  reflexivity.
Defined.

(** X18: changing the exercise while the camera is running stops the
    camera and the frame timer and does not start them again, also in the
    middle of a workout: the handler restarts the camera through the
    [handleCameraStart] of its own render, which still sees the camera as
    active and returns at once. *)
Theorem exercise_change_leaves_camera_stopped post camera exercise p :
  cameraActive p = true ->
  let p' := handleExerciseChange post camera exercise p in
  cameraActive p' = false
  /\ processingInterval p' = None
  /\ selectedExercise (ctx p') = exercise
  /\ isWorkoutActive (ctx p') = isWorkoutActive (ctx p).
Proof.
  intros Hcam. unfold handleExerciseChange, handleCameraStart.
  rewrite Hcam. unfold handleResetExercise.
  destruct (resetExercise post (ctx p)) as [c' [u|e]];
    destruct (isWorkoutActive (ctx p)) eqn:Hact; simpl;
    rewrite ?Hact; now repeat split.
Qed.

Lemma exercise_change_leaves_camera_stopped_witness :
  let p := handleStartWorkout accept_start true
             (mount "bicep_curl_left" true) in
  processingInterval
    (handleExerciseChange (fun _ => Resolved (JStr "reset")) true
       "squat" p)
  = None.
Proof.
  intros p.
  exact (proj1 (proj2
    (exercise_change_leaves_camera_stopped
       (fun _ => Resolved (JStr "reset")) true "squat"%string p eq_refl))).
Defined.

(** X19: changing the exercise acts on the exercise that was selected
    before.  The reset request names the previous exercise (what the
    server would answer for any other name plays no part), and when the
    handler does start the camera, in a workout with the camera off, the
    frame timer gets the callback of the previous render, which analyses
    frames under the previous exercise name; the page itself shows the new
    selection. *)
Theorem exercise_change_uses_previous_exercise camera exercise p :
  (forall post1 post2,
      post1 (selectedExercise (ctx p)) = post2 (selectedExercise (ctx p)) ->
      handleExerciseChange post1 camera exercise p
      = handleExerciseChange post2 camera exercise p)
  /\ (forall post,
      cameraActive p = false ->
      isWorkoutActive (ctx p) = true ->
      selectedExercise (ctx p) <> ""%string ->
      backendOnline p = true ->
      processingInterval (handleExerciseChange post true exercise p)
      = Some {| cl_selectedExercise := selectedExercise (ctx p);
                cl_exerciseData := exerciseData (ctx p) |}
      /\ selectedExercise (ctx (handleExerciseChange post true exercise p))
         = exercise).
Proof.
  split.
  - intros post1 post2 Hsame.
    unfold handleExerciseChange, handleResetExercise, resetExercise,
      WorkoutService.resetExercise.
    destruct (String.eqb (selectedExercise (ctx p)) ""); [reflexivity|].
    now rewrite Hsame.
  - intros post Hcam Hact Hsel Hon.
    unfold handleExerciseChange, handleCameraStart. rewrite Hact, Hcam. simpl.
    apply String.eqb_neq in Hsel. rewrite Hsel, Hon. simpl.
    unfold handleResetExercise.
    destruct (resetExercise post (ctx p)) as [c' [u|e]]; now split.
Qed.

Lemma exercise_change_uses_previous_exercise_witness :
  let p := fst (handleEndWorkout (fun _ _ => Thrown JUndefined JUndefined)
                  replay [] []
                  (stopCameraAndProcessing
                     (handleStartWorkout accept_start true
                        (mount "bicep_curl_left" true)))) in
  cl_selectedExercise
    <$> processingInterval
          (handleExerciseChange (fun _ => Resolved (JStr "reset")) true
             "squat" p)
  = Some "bicep_curl_left"%string.
Proof.
  intros p.
  rewrite (proj1 (proj2 (exercise_change_uses_previous_exercise true
                           "squat"%string p)
                    (fun _ => Resolved (JStr "reset"))
                    eq_refl eq_refl ltac:(discriminate) eq_refl)).
  reflexivity.
Defined.

End PageExtras.

(** ** The calendar and the dashboard *)

Module CalendarFacts.
Import Calendar.

Lemma foldl_file_session history : forall (map : gmap string (list Session)) key,
  foldl file_session map history !! key
  = match List.filter (filed_under key) history with
    | [] => map !! key
    | l => Some (default [] (map !! key) ++ l)
    end.
Proof.
  induction history as [|s rest IH]; intros map key; [reflexivity|].
  simpl. rewrite IH. unfold file_session, filed_under at 2.
  destruct (start_time s) as [t|]; [|reflexivity].
  destruct (String.eqb (date_key t) key) eqn:E.
  - apply String.eqb_eq in E. subst key. rewrite lookup_insert_eq. simpl.
    destruct (List.filter (filed_under (date_key t)) rest) as [|x l].
    + reflexivity.
    + now rewrite <- app_assoc.
  - apply String.eqb_neq in E. now rewrite lookup_insert_ne.
Qed.

(** X20: the calendar files every dated session under its date key and
    nothing else: the bucket of a key holds exactly the sessions of the
    history with that key, in the order of the history; a key without
    sessions has no bucket, so no bucket is ever empty; sessions without a
    start time are left out; and the sessions listed for a selected date
    are that bucket. *)
Theorem workoutsByDate_buckets history key :
  workoutsByDate history !! key
  = match List.filter (filed_under key) history with
    | [] => None
    | l => Some l
    end
  /\ selectedDateWorkouts (Some key) (workoutsByDate history)
     = List.filter (filed_under key) history
  /\ (forall bucket,
        workoutsByDate history !! key = Some bucket ->
        bucket <> []
        /\ forall s, In s bucket ->
             In s history
             /\ exists t, start_time s = Some t /\ date_key t = key).
Proof.
  assert (H : workoutsByDate history !! key
              = match List.filter (filed_under key) history with
                | [] => None
                | l => Some l
                end).
  { unfold workoutsByDate. rewrite foldl_file_session.
    rewrite lookup_empty. now destruct (List.filter _ history). }
  split; [exact H|]. split.
  - unfold selectedDateWorkouts. rewrite H.
    now destruct (List.filter _ history).
  - intros bucket Hb. rewrite H in Hb.
    destruct (List.filter (filed_under key) history) as [|x l] eqn:Hf;
      [discriminate|].
    injection Hb as <-. split; [discriminate|].
    intros s Hin. rewrite <- Hf in Hin. apply filter_In in Hin.
    destruct Hin as [Hin Hk]. split; [exact Hin|].
    unfold filed_under in Hk. destruct (start_time s) as [t|]; [|discriminate].
    exists t. split; [reflexivity|]. now apply String.eqb_eq.
Qed.

Lemma workoutsByDate_buckets_witness :
  [on_day "2024-05-02" 4 2024 30; on_day "2024-05-02" 4 2024 25] <> [].
Proof.
  apply (proj2 (proj2 (workoutsByDate_buckets spring "2024-05-02"))
           [on_day "2024-05-02" 4 2024 30; on_day "2024-05-02" 4 2024 25]).
  reflexivity.
Defined.

Lemma streak_loop_bound active remaining : forall i streak,
  streak_loop active remaining i streak <= streak + remaining.
Proof.
  induction remaining as [|k IH]; intros i streak; simpl; [lia|].
  destruct (active i).
  - specialize (IH (S i) (S streak)). lia.
  - destruct (0 <? streak); [lia|]. specialize (IH (S i) streak). lia.
Qed.

Lemma streak_loop_counting active remaining : forall i streak,
  0 < streak -> streak <= streak_loop active remaining i streak.
Proof.
  induction remaining as [|k IH]; intros i streak Hpos; simpl; [lia|].
  destruct (active i).
  - specialize (IH (S i) (S streak)). lia.
  - destruct (0 <? streak) eqn:E; [lia|]. apply Nat.ltb_ge in E. lia.
Qed.

Lemma streak_loop_zero active remaining : forall i,
  streak_loop active remaining i 0 = 0
  <-> forall j, i <= j < i + remaining -> active j = false.
Proof.
  induction remaining as [|k IH]; intros i; simpl.
  - split; [intros _ j Hj; lia | reflexivity].
  - destruct (active i) eqn:Ha.
    + split.
      * intros H. pose proof (streak_loop_counting active k (S i) 1). lia.
      * intros H. rewrite (H i) in Ha by lia. discriminate.
    + simpl. rewrite IH. split.
      * intros H j Hj. destruct (Nat.eq_dec j i) as [->|Hne]; [exact Ha|].
        apply H. lia.
      * intros H j Hj. apply H. lia.
Qed.

(** The loop while it counts: a run of [len] more workout days, then a
    day off or the end of the window. *)
Lemma streak_loop_run active len : forall remaining i streak,
  0 < streak ->
  (forall j, i <= j < i + len -> active j = true) ->
  len <= remaining ->
  (len = remaining \/ active (i + len) = false) ->
  streak_loop active remaining i streak = streak + len.
Proof.
  induction len as [|len IH]; intros remaining i streak Hpos Hrun Hle Hend.
  - destruct remaining as [|k]; simpl; [lia|].
    destruct Hend as [Hend|Hend]; [lia|].
    rewrite Nat.add_0_r in Hend. rewrite Hend.
    destruct (0 <? streak) eqn:E; [lia|]. apply Nat.ltb_ge in E. lia.
  - destruct remaining as [|k]; [lia|]. simpl.
    rewrite (Hrun i) by lia.
    rewrite (IH k (S i) (S streak)); try lia.
    + intros j Hj. apply Hrun. lia.
    + destruct Hend as [Hend|Hend]; [left; lia|right].
      now replace (S i + len) with (i + S len) by lia.
Qed.

(** The loop before it counts: days off are stepped over. *)
Lemma streak_loop_skip active gap : forall remaining i,
  (forall j, i <= j < i + gap -> active j = false) ->
  gap <= remaining ->
  streak_loop active remaining i 0
  = streak_loop active (remaining - gap) (i + gap) 0.
Proof.
  induction gap as [|gap IH]; intros remaining i Hoff Hle.
  - now rewrite Nat.sub_0_r, Nat.add_0_r.
  - destruct remaining as [|k]; [lia|]. simpl.
    rewrite (Hoff i) by lia. simpl.
    rewrite (IH k (S i)); try lia.
    + now replace (S i + gap) with (i + S gap) by lia.
    + intros j Hj. apply Hoff. lia.
Qed.

(** X21: the streak shown by the calendar is at most 365, and it is 0
    exactly when none of the last 365 days, today included, has a
    workout. *)
Theorem currentStreak_window day_key map :
  currentStreak day_key map <= 365
  /\ (currentStreak day_key map = 0
      <-> forall i, i < 365 -> worked day_key map i = false).
Proof.
  unfold currentStreak. split.
  - apply (streak_loop_bound _ 365 0 0).
  - rewrite streak_loop_zero. unfold worked. split.
    + intros H i Hi. apply H. lia.
    + intros H j Hj. apply H. lia.
Qed.

Lemma currentStreak_window_witness :
  currentStreak may_key (workoutsByDate [undated]) = 0.
Proof.
  apply (proj2 (proj2 (currentStreak_window may_key
                         (workoutsByDate [undated])))).
  intros i _. reflexivity.
Defined.

(** X22: the streak is the length of the latest run of workout days, and
    days off before that run do not reset it.  If the last [gap] days
    (today first) have no workout, the [len] days before them all have
    one, and the day before those has none or lies outside the window of
    365 days, the streak is [len], however large [gap] is. *)
Theorem currentStreak_is_latest_run day_key map gap len :
  (forall i, i < gap -> worked day_key map i = false) ->
  (forall i, gap <= i < gap + len -> worked day_key map i = true) ->
  0 < len ->
  gap + len <= 365 ->
  (gap + len = 365 \/ worked day_key map (gap + len) = false) ->
  currentStreak day_key map = len.
Proof.
  intros Hoff Hrun Hpos Hfit Hend. unfold currentStreak.
  fold (worked day_key map).
  rewrite (streak_loop_skip (worked day_key map) gap 365 0);
    [|intros j Hj; apply Hoff; lia | lia].
  simpl (0 + gap).
  destruct (365 - gap) as [|k] eqn:Hk; [lia|].
  simpl. rewrite (Hrun gap) by lia.
  rewrite (streak_loop_run (worked day_key map) (len - 1) k (S gap) 1);
    try lia.
  - intros j Hj. apply Hrun. lia.
  - destruct Hend as [Hend|Hend]; [left; lia|right].
    now replace (S gap + (len - 1)) with (gap + len) by lia.
Qed.

Lemma currentStreak_is_latest_run_witness :
  currentStreak may_key (workoutsByDate spring) = 3.
Proof.
  apply (currentStreak_is_latest_run may_key (workoutsByDate spring) 1 3).
  - intros i Hi. assert (i = 0) as -> by lia. reflexivity.
  - intros i Hi.
    assert (i = 1 \/ i = 2 \/ i = 3) as [-> | [-> | ->]] by lia;
      reflexivity.
  - lia.
  - lia.
  - right. reflexivity.
Defined.

Lemma foldl_reps (l : list Session) : forall a : Z,
  foldl (fun sum w => (sum + default 0 (total_reps w))%Z) a l
  = (a + reps_of l)%Z.
Proof.
  induction l as [|w l IH]; intros a; simpl; [lia|]. rewrite IH. lia.
Qed.

Lemma intensity_of_total (map : gmap string (list Session)) key :
  getWorkoutIntensity map key
  = if (50 <=? reps_of (selectedDateWorkouts (Some key) map))%Z then 3
    else if (20 <=? reps_of (selectedDateWorkouts (Some key) map))%Z then 2
    else 1.
Proof.
  unfold getWorkoutIntensity, selectedDateWorkouts.
  now rewrite foldl_reps, Z.add_0_l.
Qed.

Lemma reps_of_app l1 l2 : reps_of (l1 ++ l2) = (reps_of l1 + reps_of l2)%Z.
Proof. induction l1 as [|w l1 IH]; simpl; [reflexivity|]. rewrite IH. lia. Qed.

(** X23: the dot of a day in the calendar follows the reps of that day:
    with [total] the reps of the sessions of the history dated that day
    (a missing count taken as 0), the intensity is 3 from 50 reps on, 2
    from 20 to 49, and 1 below, also for a day without any session; and
    one more session with a count that is not negative never lowers the
    intensity of any day. *)
Theorem intensity_follows_reps history key :
  let total := reps_of (List.filter (filed_under key) history) in
  (getWorkoutIntensity (workoutsByDate history) key = 3 <-> (50 <= total)%Z)
  /\ (getWorkoutIntensity (workoutsByDate history) key = 2
      <-> (20 <= total < 50)%Z)
  /\ (getWorkoutIntensity (workoutsByDate history) key = 1 <-> (total < 20)%Z)
  /\ forall s,
       (0 <= default 0 (total_reps s))%Z ->
       getWorkoutIntensity (workoutsByDate history) key
       <= getWorkoutIntensity (workoutsByDate (history ++ [s])) key.
Proof.
  intros total.
  assert (Hi : forall h,
             getWorkoutIntensity (workoutsByDate h) key
             = if (50 <=? reps_of (List.filter (filed_under key) h))%Z then 3
               else if (20 <=? reps_of (List.filter (filed_under key) h))%Z
                    then 2 else 1).
  { intros h. rewrite intensity_of_total.
    unfold selectedDateWorkouts, workoutsByDate.
    rewrite foldl_file_session, lookup_empty.
    now destruct (List.filter (filed_under key) h). }
  rewrite !Hi. fold total.
  split; [|split; [|split]].
  - destruct (50 <=? total)%Z eqn:E50; [apply Z.leb_le in E50; tauto|].
    apply Z.leb_gt in E50.
    destruct (20 <=? total)%Z; split; (discriminate || lia).
  - destruct (50 <=? total)%Z eqn:E50.
    + apply Z.leb_le in E50. split; (discriminate || lia).
    + apply Z.leb_gt in E50. destruct (20 <=? total)%Z eqn:E20.
      * apply Z.leb_le in E20. split; [lia | reflexivity].
      * apply Z.leb_gt in E20. split; (discriminate || lia).
  - destruct (50 <=? total)%Z eqn:E50.
    + apply Z.leb_le in E50. split; (discriminate || lia).
    + apply Z.leb_gt in E50. destruct (20 <=? total)%Z eqn:E20.
      * apply Z.leb_le in E20. split; (discriminate || lia).
      * apply Z.leb_gt in E20. split; [lia | reflexivity].
  - intros s Hs. rewrite Hi, List.filter_app, reps_of_app. fold total.
    set (extra := reps_of (List.filter (filed_under key) [s])).
    assert (Hextra : (0 <= extra)%Z).
    { unfold extra. simpl. destruct (filed_under key s); simpl; lia. }
    destruct (50 <=? total)%Z eqn:E50, (20 <=? total)%Z eqn:E20,
             (50 <=? total + extra)%Z eqn:F50,
             (20 <=? total + extra)%Z eqn:F20;
      rewrite ?Z.leb_le, ?Z.leb_gt in *; lia.
Qed.

Lemma intensity_follows_reps_witness :
  getWorkoutIntensity (workoutsByDate spring) "2024-05-02"
  <= getWorkoutIntensity
       (workoutsByDate (spring ++ [on_day "2024-05-02" 4 2024 1]))
       "2024-05-02".
Proof.
  apply (proj2 (proj2 (proj2
           (intensity_follows_reps spring "2024-05-02")))
           (on_day "2024-05-02" 4 2024 1)).
  simpl. lia.
Defined.

Lemma foldl_tally cm cy history : forall w r c (days : gset string),
  let '(w', r', _, days') := foldl (tally cm cy) (w, r, c, days) history in
  w' = w + length (List.filter (in_month cm cy) history)
  /\ r' = (r + reps_of (List.filter (in_month cm cy) history))%Z
  /\ size days' <= size days + length (List.filter (in_month cm cy) history)
  /\ days ⊆ days'
  /\ (0 < length (List.filter (in_month cm cy) history) -> 0 < size days').
Proof.
  induction history as [|s rest IH]; intros w r c days.
  - simpl. repeat split; try lia. set_solver.
  - assert (Ht : tally cm cy (w, r, c, days) s
                 = if in_month cm cy s then
                     match start_time s with
                     | Some d =>
                         (S w, (r + default 0 (total_reps s))%Z,
                          (c + default 0%Q (calories_estimate s))%Q,
                          {[date_key d]} ∪ days)
                     | None => (w, r, c, days)
                     end
                   else (w, r, c, days)).
    { unfold tally, in_month. destruct (start_time s) as [d|]; [|reflexivity].
      now destruct (Nat.eqb (month d) cm && Z.eqb (year d) cy). }
    simpl. rewrite Ht. destruct (in_month cm cy s) eqn:Hin; [|apply IH].
    destruct (start_time s) as [d|] eqn:Hst;
      [|unfold in_month in Hin; rewrite Hst in Hin; discriminate].
    specialize (IH (S w) (r + default 0 (total_reps s))%Z
                  (c + default 0%Q (calories_estimate s))%Q
                  ({[date_key d]} ∪ days)).
    destruct (foldl (tally cm cy) _ rest) as [[[w' r'] c'] days'].
    destruct IH as (Hw & Hr & Hd & Hsub & _). simpl.
    assert (Hone : size ({[date_key d]} ∪ days) <= S (size days)).
    { rewrite size_union_alt, size_singleton.
      assert (Hdiff : days ∖ {[date_key d]} ⊆ days)
        by (intros x Hx; now apply elem_of_difference in Hx).
      apply subseteq_size in Hdiff. lia. }
    assert (Hpos : 0 < size days').
    { destruct (size days') eqn:E; [|lia].
      apply size_empty_iff in E. set_solver. }
    repeat split; try lia. set_solver.
Qed.

(** X24: the monthly figures of the calendar count the sessions of the
    month shown and nothing else: the number of workouts is the number of
    sessions of the history dated in that month and year, the reps are
    their reps added up (a missing count taken as 0), and the active days
    are at least one when there is a workout and never more than the
    workouts.  Sessions without a start time or from another month do
    not count. *)
Theorem monthlyStats_counts_the_month cm cy history :
  let stats := monthlyStats cm cy history in
  let sessions := List.filter (in_month cm cy) history in
  totalWorkouts stats = length sessions
  /\ totalReps stats = reps_of sessions
  /\ activeDays stats <= totalWorkouts stats
  /\ (0 < totalWorkouts stats -> 0 < activeDays stats)
  /\ totalWorkouts stats <= length history.
Proof.
  unfold monthlyStats.
  pose proof (foldl_tally cm cy history 0 0%Z 0%Q ∅) as H.
  destruct (foldl (tally cm cy) _ history) as [[[w r] c] days].
  destruct H as (Hw & Hr & Hd & _ & Hpos). simpl.
  rewrite size_empty in Hd.
  pose proof (filter_length_le (in_month cm cy) history) as Hlen.
  refine (conj _ (conj _ (conj _ (conj _ _)))); lia.
Qed.

Lemma monthlyStats_counts_the_month_witness :
  0 < activeDays (monthlyStats 4 2024 spring).
Proof.
  apply (proj1 (proj2 (proj2 (proj2
           (monthlyStats_counts_the_month 4 2024 spring))))).
  vm_compute. lia.
Defined.

End CalendarFacts.

Module DashboardFacts.
Import Calendar Dashboard.

Lemma existsb_permutation {A : Type} (f : A -> bool) (l l' : list A) :
  l ≡ₚ l' -> existsb f l = existsb f l'.
Proof.
  induction 1 as [|x l l' _ IH|x y l|l l' l'' _ IH1 _ IH2]; simpl.
  - reflexivity.
  - now rewrite IH.
  - destruct (f x), (f y); reflexivity.
  - now rewrite IH1.
Qed.

Lemma streak_loop_ext active active' :
  (forall i, active i = active' i) ->
  forall remaining i streak,
    streak_loop active remaining i streak
    = streak_loop active' remaining i streak.
Proof.
  intros Hext. induction remaining as [|k IH]; intros i streak; simpl;
    [reflexivity|].
  rewrite Hext, !IH. reflexivity.
Qed.

(** X25: the streak of the dashboard looks at the last 30 days only and
    does not depend on how the sessions are sorted: it is at most 30, it
    is what the loop gives on the unsorted dated sessions, and it is 0
    exactly when no dated session starts on any of the last 30 days. *)
Theorem dashboard_streak_window sort day_key sessions :
  (forall l, sort l ≡ₚ l) ->
  calculateWorkoutStreak sort day_key sessions <= 30
  /\ calculateWorkoutStreak sort day_key sessions
     = calculateWorkoutStreak (fun l => l) day_key sessions
  /\ (calculateWorkoutStreak sort day_key sessions = 0
      <-> forall i, i < 30 ->
            existsb (on_date (day_key i)) (List.filter dated sessions)
            = false).
Proof.
  intros Hsort.
  assert (Hsame : calculateWorkoutStreak sort day_key sessions
                  = calculateWorkoutStreak (fun l => l) day_key sessions).
  { unfold calculateWorkoutStreak. destruct sessions as [|s rest];
      [reflexivity|].
    apply streak_loop_ext. intros i. apply existsb_permutation, Hsort. }
  split; [|split; [exact Hsame|]].
  - unfold calculateWorkoutStreak. destruct sessions; [lia|].
    apply (CalendarFacts.streak_loop_bound _ 30 0 0).
  - rewrite Hsame. unfold calculateWorkoutStreak.
    destruct sessions as [|s rest].
    + split; [intros _ i _; reflexivity | reflexivity].
    + rewrite CalendarFacts.streak_loop_zero. split.
      * intros H i Hi. apply H. lia.
      * intros H j Hj. apply H. lia.
Qed.

Lemma dashboard_streak_window_witness :
  calculateWorkoutStreak (@rev Session) Calendar.may_key week
  = calculateWorkoutStreak (fun l => l) Calendar.may_key week.
Proof.
  apply (proj1 (proj2 (dashboard_streak_window (@rev Session)
                         Calendar.may_key week
                         (fun l => Permutation_sym (Permutation_rev l))))).
Defined.

End DashboardFacts.

(** ** The profile wizard *)

Module ProfileFacts.
Import ProfileSetup.

Lemma includes_app l1 l2 v : includes (l1 ++ l2) v = includes l1 v || includes l2 v.
Proof. unfold includes. apply existsb_app. Qed.

Lemma includes_filter l v x :
  includes (List.filter (fun item => negb (String.eqb item v)) l) x
  = includes l x && negb (String.eqb x v).
Proof.
  unfold includes. induction l as [|y l IH]; [reflexivity|]. simpl.
  destruct (String.eqb y v) eqn:Eyv; simpl; rewrite IH.
  - apply String.eqb_eq in Eyv. subst y.
    destruct (String.eqb v x) eqn:Evx; simpl; [|reflexivity].
    apply String.eqb_eq in Evx. subst x. rewrite String.eqb_refl. simpl.
    now rewrite andb_false_r.
  - destruct (String.eqb y x) eqn:Eyx; simpl; [|reflexivity].
    apply String.eqb_eq in Eyx. subst y.
    now rewrite Eyv.
Qed.

Lemma get_set_array field l pd : get_array field (set_array field l pd) = l.
Proof. now destruct field. Qed.

(** X26: a checkbox of the wizard shows what was clicked.  After
    [handleArrayChange(field, value, checked)] the list of the field
    includes the value exactly when [checked] is true, the membership of
    every other value is as before, and the other list and the scalar
    fields are untouched; ticking a value that was not in the list and
    unticking it again gives the list back. *)
Theorem handleArrayChange_mirrors_checkbox field value checked pd :
  let pd' := handleArrayChange field value checked pd in
  includes (get_array field pd') value = checked
  /\ (forall other, other <> value ->
        includes (get_array field pd') other
        = includes (get_array field pd) other)
  /\ (forall field', field' <> field ->
        get_array field' pd' = get_array field' pd)
  /\ (name pd', age pd', gender pd', weight pd', height pd',
      fitness_goal pd', activity_level pd')
     = (name pd, age pd, gender pd, weight pd, height pd,
        fitness_goal pd, activity_level pd)
  /\ (includes (get_array field pd) value = false ->
      get_array field
        (handleArrayChange field value false
           (handleArrayChange field value true pd))
      = get_array field pd).
Proof.
  unfold handleArrayChange.
  refine (conj _ (conj _ (conj _ (conj _ _)))).
  - rewrite get_set_array. destruct checked.
    + rewrite includes_app. unfold includes at 2. simpl.
      rewrite String.eqb_refl. now rewrite orb_true_r.
    + rewrite includes_filter, String.eqb_refl. now rewrite andb_false_r.
  - intros other Hne. rewrite get_set_array.
    apply String.eqb_neq in Hne. destruct checked.
    + rewrite includes_app. unfold includes at 2. simpl.
      rewrite String.eqb_sym, Hne. now rewrite !orb_false_r.
    + rewrite includes_filter, Hne. now rewrite andb_true_r.
  - intros field' Hne. destruct field, field'; (reflexivity || contradiction).
  - now destruct field.
  - intros Hnot. rewrite !get_set_array.
    rewrite List.filter_app. simpl. rewrite String.eqb_refl. simpl.
    rewrite app_nil_r.
    induction (get_array field pd) as [|y l IH]; [reflexivity|].
    unfold includes in Hnot. simpl in Hnot.
    apply orb_false_iff in Hnot. destruct Hnot as [Hy Hl].
    simpl. rewrite Hy. simpl. f_equal. now apply IH.
Qed.

Lemma handleArrayChange_mirrors_checkbox_witness :
  medical_conditions
    (handleArrayChange MedicalConditions "Diabetes" false
       (handleArrayChange MedicalConditions "Diabetes" true newcomer))
  = ["Asthma"%string].
Proof.
  apply (proj2 (proj2 (proj2 (proj2
           (handleArrayChange_mirrors_checkbox MedicalConditions
              "Diabetes" true newcomer))))).
  reflexivity.
Defined.

Lemma out_of_range_within x lo hi :
  (0 < lo)%Q -> out_of_range x lo hi = false <-> within x lo hi.
Proof.
  intros Hlo. unfold out_of_range, within. destruct x as [| |q].
  - split; [discriminate | intros (q & [=] & _)].
  - split; [discriminate | intros (q & [=] & _)].
  - rewrite !orb_false_iff, !negb_false_iff, !Qle_bool_iff. split.
    + intros ((_ & H1) & H2). now exists q.
    + intros (q' & [= <-] & H1 & H2). repeat split; try assumption.
      destruct (Qeq_bool q 0) eqn:E; [|reflexivity].
      apply Qeq_bool_iff in E. rewrite E in H1.
      now apply Qlt_not_le in Hlo.
Qed.

(** X27: the wizard moves forward only over valid data.  [handleNext]
    goes to the next step and clears the error exactly when the step
    validates, and otherwise stays on the step with a message that is not
    empty; it never changes the data entered.  Step 2 validates exactly
    when the weight is a number from 30 to 300 and the height a number
    from 100 to 250, bounds included; steps other than 1, 2 and 3 always
    validate, so nothing stops [handleNext] past the last step; and
    [handlePrevious] goes back one step without any check. *)
Theorem wizard_advances_on_valid_steps trim w :
  profileData (handleNext trim w) = profileData w
  /\ (validateStep trim (currentStep w) (profileData w) = None ->
      currentStep (handleNext trim w) = (currentStep w + 1)%Z
      /\ error (handleNext trim w) = ""%string)
  /\ (forall msg,
        validateStep trim (currentStep w) (profileData w) = Some msg ->
        currentStep (handleNext trim w) = currentStep w
        /\ error (handleNext trim w) = msg
        /\ msg <> ""%string)
  /\ (validateStep trim 2 (profileData w) = None
      <-> within (weight (profileData w)) 30 300
          /\ within (height (profileData w)) 100 250)
  /\ (forall step pd,
        step <> 1%Z -> step <> 2%Z -> step <> 3%Z ->
        validateStep trim step pd = None)
  /\ currentStep (handlePrevious w) = (currentStep w - 1)%Z.
Proof.
  refine (conj _ (conj _ (conj _ (conj _ (conj _ _))))).
  - unfold handleNext. now destruct (validateStep _ _ _).
  - intros H. unfold handleNext. now rewrite H.
  - intros msg H. unfold handleNext. rewrite H. simpl.
    split; [reflexivity|]. split; [reflexivity|].
    unfold validateStep in H.
    repeat match type of H with
           | (if ?c then _ else _) = _ => destruct c
           end; try discriminate; injection H as <-; discriminate.
  - unfold validateStep. simpl.
    rewrite <- (out_of_range_within (weight (profileData w)) 30 300)
      by reflexivity.
    rewrite <- (out_of_range_within (height (profileData w)) 100 250)
      by reflexivity.
    destruct (out_of_range (weight (profileData w)) 30 300);
      destruct (out_of_range (height (profileData w)) 100 250);
      split; (discriminate || tauto || (intros [? ?]; discriminate)).
  - intros step pd H1 H2 H3. unfold validateStep.
    apply Z.eqb_neq in H1, H2, H3. now rewrite H1, H2, H3.
  - reflexivity.
Qed.

Lemma wizard_advances_on_valid_steps_witness :
  let w := {| currentStep := 2; error := ""; profileData := newcomer |} in
  currentStep (handleNext no_trim w) = 3%Z.
Proof.
  intros w.
  exact (proj1 (proj1 (proj2 (wizard_advances_on_valid_steps no_trim w))
                  eq_refl)).
Defined.

End ProfileFacts.
